(** * Tavily proxy server: request mediation and authorization

    A shallow embedding of [server.py]: the credential dependency
    [get_api_key], the pydantic request models, the three route handlers
    and the [FastApiMCP] mount, followed by the properties of the
    specification that concern them.

    Handlers are embedded in a small monad that threads the log of the
    effects a handler performs (outgoing [requests.post] calls and
    [print]s) and carries Python exceptions as the left summand of the
    result. *)

From Stdlib Require Import String List ZArith Bool Ascii Lia DecimalString.
Import ListNotations.
Open Scope string_scope.
Open Scope Z_scope.

#[local] Set Warnings "-register-all".

(** ** Values *)

(** Parsed JSON documents, as [request.json()] / [response.json()] deliver
    them.  A number that is not an integer is kept as its literal. *)
Inductive JSON : Type :=
| JNull
| JBool (b : bool)
| JInt (n : Z)
| JFloat (literal : string)
| JString (s : string)
| JArray (items : list JSON)
| JObject (members : list (string * JSON)).

(** A Python [dict] with string keys, in insertion order. *)
Definition dict (V : Type) : Type := list (string * V).

Fixpoint dict_get {V : Type} (k : string) (d : dict V) : option V :=
  match d with
  | [] => None
  | (k', v) :: d' => if String.eqb k k' then Some v else dict_get k d'
  end.

Definition keys {V : Type} (d : dict V) : list string := map fst d.

(** The field names of a JSON object. *)
Definition json_keys (v : JSON) : list string :=
  match v with
  | JObject members => keys members
  | _ => []
  end.

(** ** Exceptions *)

(** [HTTPException] is the FastAPI/Starlette exception class; it derives
    from [Exception].  Every other exception is kept by its message, that
    is by what [str(e)] returns for it. *)
Inductive exn : Type :=
| HTTPException (status_code : Z) (detail : string)
| Exception (message : string).

Definition str_int (n : Z) : string := NilZero.string_of_int (Z.to_int n).

(** [str(e)].  For [HTTPException] this is Starlette's [__str__], which
    formats the exception as [f"{self.status_code}: {self.detail}"]. *)
Definition str (e : exn) : string :=
  match e with
  | HTTPException status_code detail => str_int status_code ++ ": " ++ detail
  | Exception message => message
  end.

(** ** The upstream provider *)

(** What a handler reads of a [requests.Response]: [status_code], [text]
    and the outcome of calling [json()], which raises on a body that is
    not JSON. *)
Record Response : Type := {
  status_code : Z;
  text : string;
  json : exn + JSON
}.

Definition Headers : Type := dict string.

(** [requests.post(url, json=..., headers=...)] either raises (timeout,
    DNS failure, connection reset, ...) or returns a response. *)
Definition Upstream : Type := string -> JSON -> Headers -> exn + Response.

(** ** Effects *)

Inductive Event : Type :=
| Post (url : string) (payload : JSON) (headers : Headers)
| Print (line : string).

Definition Log : Type := list Event.

Definition is_post (ev : Event) : bool :=
  match ev with Post _ _ _ => true | Print _ => false end.

Definition is_print (ev : Event) : bool :=
  match ev with Post _ _ _ => false | Print _ => true end.

(** The outgoing HTTP calls and the server-side log lines of a run. *)
Definition upstream_calls (log : Log) : list Event := filter is_post log.
Definition printed (log : Log) : list Event := filter is_print log.

(** A computation that may raise and that appends to the log. *)
Definition M (A : Type) : Type := Log -> (exn + A) * Log.

Definition ret {A : Type} (a : A) : M A := fun log => (inr a, log).

Definition raise {A : Type} (e : exn) : M A := fun log => (inl e, log).

Definition bind {A B : Type} (m : M A) (k : A -> M B) : M B :=
  fun log =>
    match m log with
    | (inl e, log') => (inl e, log')
    | (inr a, log') => k a log'
    end.

(** [try: body except Exception as e: handler(e)]. *)
Definition try_except {A : Type} (body : M A) (handler : exn -> M A) : M A :=
  fun log =>
    match body log with
    | (inl e, log') => handler e log'
    | (inr a, log') => (inr a, log')
    end.

Definition emit (ev : Event) : M unit := fun log => (inr tt, (log ++ [ev])%list).

Definition lift {A : Type} (r : exn + A) : M A := fun log => (r, log).

Declare Scope py_scope.
Delimit Scope py_scope with py.
Notation "x <- m ;; k" := (bind m (fun x => k))
  (at level 61, m at next level, right associativity) : py_scope.
Notation "m ;;; k" := (bind m (fun _ => k))
  (at level 61, right associativity) : py_scope.

(** [d[k]]: a missing key raises [KeyError], whose [str] is the quoted
    key. *)
Definition getitem {V : Type} (d : dict V) (k : string) : M V :=
  match dict_get k d with
  | Some v => ret v
  | None => raise (Exception ("'" ++ k ++ "'"))
  end.

(** [print(line)]. *)
Definition print (line : string) : M unit := emit (Print line).

(** ** Request models *)

(** [class TavilySearchRequest(BaseModel)]. *)
Module TavilySearchRequest.
Record t : Type := mk {
  query : string;
  search_depth : string;
  topic : string;
  days : Z;
  time_range : string;
  max_results : Z;
  include_images : bool;
  include_image_descriptions : bool;
  include_raw_content : bool;
  include_domains : list string;
  exclude_domains : list string
}.
End TavilySearchRequest.

(** [class TavilyExtractRequest(BaseModel)]. *)
Module TavilyExtractRequest.
Record t : Type := mk {
  urls : list string;
  extract_depth : string;
  include_images : bool
}.
End TavilyExtractRequest.

(** The [Literal[...]] sets of the enumerated fields. *)
Definition search_depth_literals : list string := ["basic"; "advanced"].
Definition topic_literals : list string := ["general"; "news"].
Definition time_range_literals : list string :=
  ["day"; "week"; "month"; "year"; "d"; "w"; "m"; "y"].
Definition extract_depth_literals : list string := ["basic"; "advanced"].

(** The enumerated fields of each model, with their literal sets. *)
Definition TavilySearchRequest_enums : list (string * list string) :=
  [("search_depth", search_depth_literals);
   ("topic", topic_literals);
   ("time_range", time_range_literals)].

Definition TavilyExtractRequest_enums : list (string * list string) :=
  [("extract_depth", extract_depth_literals)].

(** A value lies outside a literal set when it is none of its strings. *)
Definition outside (literals : list string) (v : JSON) : Prop :=
  forall s : string, In s literals -> v <> JString s.

(** One entry of a pydantic validation failure: the offending field and
    the constraint it violates. *)
Inductive ErrorKind : Type := missing | literal_error | type_error.

Record ValidationError : Type := {
  loc : string;
  kind : ErrorKind
}.

(** A [str] field takes a JSON string as it is. *)
Definition str_validator (v : JSON) : option string :=
  match v with
  | JString s => Some s
  | _ => None
  end.

(** A [Literal[...]] field takes a string equal, character for character,
    to one of the declared literals. *)
Definition literal_validator (literals : list string) (v : JSON)
  : option string :=
  match v with
  | JString s => if existsb (String.eqb s) literals then Some s else None
  | _ => None
  end.

(** A [list[str]] field takes an array all of whose items are strings. *)
Fixpoint all_str (items : list JSON) : option (list string) :=
  match items with
  | [] => Some []
  | v :: items' =>
      match str_validator v, all_str items' with
      | Some s, Some l => Some (s :: l)
      | _, _ => None
      end
  end.

Definition list_str_validator (v : JSON) : option (list string) :=
  match v with
  | JArray items => all_str items
  | _ => None
  end.

(** A field of a model: an absent key takes the declared default, or is
    reported [missing] when the field has none; a present key goes through
    the validator of the field's type. *)
Definition field {A : Type} (data : dict JSON) (name : string)
  (default : option A) (validator : JSON -> option A) (on_reject : ErrorKind)
  : ValidationError + A :=
  match dict_get name data with
  | None =>
      match default with
      | Some a => inr a
      | None => inl {| loc := name; kind := missing |}
      end
  | Some v =>
      match validator v with
      | Some a => inr a
      | None => inl {| loc := name; kind := on_reject |}
      end
  end.

(** Model validation visits every declared field and collects the errors
    of all of them; keys that are not declared are not looked at. *)
Definition Validation (A : Type) : Type := list ValidationError + A.

Definition ap {A B : Type} (f : Validation (A -> B)) (x : ValidationError + A)
  : Validation B :=
  match f, x with
  | inr g, inr a => inr (g a)
  | inr _, inl e => inl [e]
  | inl es, inr _ => inl es
  | inl es, inl e => inl (es ++ [e])%list
  end.

Notation "f <*> x" := (ap f x) (at level 52, left associativity) : py_scope.

(** A validation that fails and reports the given error among its errors. *)
Definition fails_with {A : Type} (r : Validation A) (e : ValidationError)
  : Prop :=
  exists errors : list ValidationError, r = inl errors /\ In e errors.

(** ** Routes *)

(** [Depends(get_api_key)], the only dependency the application declares. *)
Inductive Dependency : Type := Depends_get_api_key.

Inductive Operation : Type :=
| op_public_search
| op_tavily_search
| op_tavily_extract.

(** A route as [@app.post(path)] registers it: its path, the handler it
    runs and the dependencies named in the handler's signature. *)
Module Route.
Record t : Type := mk {
  path : string;
  endpoint : Operation;
  dependencies : list Dependency
}.
End Route.

(** What the caller of a route receives: the handler's return value, an
    [HTTPException] rendered with its status and detail, or the
    framework's validation failure (status 422). *)
Inductive Reply : Type :=
| Returned (body : JSON)
| Failed (status_code : Z) (detail : string)
| Unprocessable (errors : list ValidationError).

Definition reply_of_exn (e : exn) : Reply :=
  match e with
  | HTTPException status_code detail => Failed status_code detail
  | Exception _ => Failed 500 "Internal Server Error"
  end.

(** A handler outcome that stays inside the HTTP layer: a value, or an
    [HTTPException] with status 500. *)
Definition contained {A : Type} (r : exn + A) : Prop :=
  match r with
  | inr _ => True
  | inl (HTTPException status_code _) => status_code = 500
  | inl (Exception _) => False
  end.

Definition render (r : (exn + JSON) * Log) : Reply * Log :=
  match r with
  | (inl e, log) => (reply_of_exn e, log)
  | (inr body, log) => (Returned body, log)
  end.

(** [AuthConfig(dependencies=[...])] and [FastApiMCP(app, name=...,
    auth_config=...)], with the arguments the source passes. *)
Module AuthConfig.
Record t : Type := mk {
  dependencies : list Dependency
}.
End AuthConfig.

Module FastApiMCP.
Record t : Type := mk {
  fastapi : list Route.t;
  name : string;
  auth_config : AuthConfig.t
}.
End FastApiMCP.

(** ** Declared fields *)

(** The fields each model declares, in the order of the class body. *)
Definition TavilySearchRequest_fields : list string :=
  ["query"; "search_depth"; "topic"; "days"; "time_range"; "max_results";
   "include_images"; "include_image_descriptions"; "include_raw_content";
   "include_domains"; "exclude_domains"].

Definition TavilyExtractRequest_fields : list string :=
  ["urls"; "extract_depth"; "include_images"].

(** [payload.get(name)] on a JSON value: the member of an object, nothing
    on any other value. *)
Definition json_get (name : string) (v : JSON) : option JSON :=
  match v with
  | JObject members => dict_get name members
  | _ => None
  end.

(** ** Test fixtures *)

(** Two process environments: one with both secrets, one where the
    caller-facing secret is not set. *)
Definition environ_configured : dict string :=
  [("API_KEY", "s3cret"); ("TAVILY_API_KEY", "tvly-provider")].

Definition environ_without_API_KEY : dict string :=
  [("TAVILY_API_KEY", "tvly-provider")].

(** Validators of [int] and [bool] fields that accept the JSON value of
    that very type. *)
Definition exact_int (v : JSON) : option Z :=
  match v with JInt n => Some n | _ => None end.

Definition exact_bool (v : JSON) : option bool :=
  match v with JBool b => Some b | _ => None end.

(** Stub providers. *)
Definition answer_body : JSON :=
  JObject [("query", JString "rust ownership");
           ("results", JArray [JObject [("title", JString "x");
                                        ("url", JString "http://x");
                                        ("content", JString "c");
                                        ("score", JFloat "0.9")]])].

Definition upstream_ok : Upstream :=
  fun _ _ _ => inr {| status_code := 200; text := "{...}"; json := inr answer_body |}.

Definition upstream_503 : Upstream :=
  fun _ _ _ =>
    inr {| status_code := 503;
           text := "Service Unavailable";
           json := inl (Exception "Expecting value: line 1 column 1 (char 0)") |}.

Definition upstream_unreachable : Upstream :=
  fun _ _ _ => inl (Exception "Connection reset by peer").

Definition upstream_not_json : Upstream :=
  fun _ _ _ =>
    inr {| status_code := 200;
           text := "<html>";
           json := inl (Exception "Expecting value: line 1 column 1 (char 0)") |}.

(** Request bodies. *)
Definition body_query_only : JSON := JObject [("query", JString "rust ownership")].

Definition body_deep : JSON :=
  JObject [("query", JString "rust ownership"); ("search_depth", JString "deep")].

Definition body_urls : JSON := JObject [("urls", JArray [JString "http://a"])].

Definition request_query_only : TavilySearchRequest.t :=
  TavilySearchRequest.mk "rust ownership" "basic" "general" 3 "day" 10
    false false false [] [].

Definition request_urls : TavilyExtractRequest.t :=
  TavilyExtractRequest.mk ["http://a"] "basic" false.

(** ** The server *)

Section Server.

(** [os.environ], read once when the module is loaded. *)
Variable environ : dict string.

(** pydantic's validators of [int] and [bool] fields.  Which JSON values
    they coerce is the library's business; nothing below depends on it. *)
Variable int_validator : JSON -> option Z.
Variable bool_validator : JSON -> option bool.

(** [requests.post]. *)
Variable requests_post : Upstream.

(** [API_KEY = os.environ.get("API_KEY")]. *)
Definition API_KEY : option string := dict_get "API_KEY" environ.

(** [==] on values that are a [str] or [None]. *)
Definition py_eq (a b : option string) : bool :=
  match a, b with
  | None, None => true
  | Some x, Some y => String.eqb x y
  | _, _ => false
  end.

(** [get_api_key].  Its argument is what the [APIKeyHeader(name="api_key",
    auto_error=False)] scheme delivers: the value of the [api_key]
    header, or [None] when the request carries none. *)
Definition get_api_key (api_key_header : option string) : M (option string) :=
  if py_eq api_key_header API_KEY
  then ret api_key_header
  else raise (HTTPException 403 "Invalid API key").

(** [TAVILY_API_KEY = os.environ.get("TAVILY_API_KEY")], and the guard
    that follows it at module level. *)
Definition TAVILY_API_KEY : option string := dict_get "TAVILY_API_KEY" environ.

(** [not x] for a value that is a [str] or [None]. *)
Definition py_not (x : option string) : bool :=
  match x with
  | None => true
  | Some s => String.eqb s ""
  end.

Definition startup : exn + unit :=
  if py_not TAVILY_API_KEY
  then inl (Exception "TAVILY_API_KEY environment variable is required")
  else inr tt.

(** [f"{x}"] for a value that is a [str] or [None]. *)
Definition format (x : option string) : string :=
  match x with
  | Some s => s
  | None => "None"
  end.

Definition baseURLs : dict string :=
  [("search", "https://api.tavily.com/search");
   ("extract", "https://api.tavily.com/extract")].

(** The two values of that dictionary. *)
Definition search_url : string := "https://api.tavily.com/search".
Definition extract_url : string := "https://api.tavily.com/extract".

(** *** Validation of the request bodies *)

Definition validate_TavilySearchRequest (body : JSON)
  : Validation TavilySearchRequest.t :=
  match body with
  | JObject data =>
      (inr TavilySearchRequest.mk
        <*> field data "query" None str_validator type_error
        <*> field data "search_depth" (Some "basic")
              (literal_validator search_depth_literals) literal_error
        <*> field data "topic" (Some "general")
              (literal_validator topic_literals) literal_error
        <*> field data "days" (Some 3) int_validator type_error
        <*> field data "time_range" (Some "day")
              (literal_validator time_range_literals) literal_error
        <*> field data "max_results" (Some 10) int_validator type_error
        <*> field data "include_images" (Some false) bool_validator type_error
        <*> field data "include_image_descriptions" (Some false)
              bool_validator type_error
        <*> field data "include_raw_content" (Some false)
              bool_validator type_error
        <*> field data "include_domains" (Some []) list_str_validator type_error
        <*> field data "exclude_domains" (Some []) list_str_validator type_error)%py
  | _ => inl [{| loc := "body"; kind := type_error |}]
  end.

Definition validate_TavilyExtractRequest (body : JSON)
  : Validation TavilyExtractRequest.t :=
  match body with
  | JObject data =>
      (inr TavilyExtractRequest.mk
        <*> field data "urls" None list_str_validator type_error
        <*> field data "extract_depth" (Some "basic")
              (literal_validator extract_depth_literals) literal_error
        <*> field data "include_images" (Some false) bool_validator type_error)%py
  | _ => inl [{| loc := "body"; kind := type_error |}]
  end.

(** *** Handlers *)

(** The [params] dictionaries the handlers build. *)
Definition search_params (request : TavilySearchRequest.t) : JSON :=
  JObject
    [("query", JString (TavilySearchRequest.query request));
     ("search_depth", JString (TavilySearchRequest.search_depth request));
     ("topic", JString (TavilySearchRequest.topic request));
     ("days", JInt (TavilySearchRequest.days request));
     ("time_range", JString (TavilySearchRequest.time_range request));
     ("max_results", JInt (TavilySearchRequest.max_results request));
     ("include_images", JBool (TavilySearchRequest.include_images request));
     ("include_image_descriptions",
      JBool (TavilySearchRequest.include_image_descriptions request));
     ("include_raw_content",
      JBool (TavilySearchRequest.include_raw_content request));
     ("include_domains",
      JArray (map JString (TavilySearchRequest.include_domains request)));
     ("exclude_domains",
      JArray (map JString (TavilySearchRequest.exclude_domains request)))].

Definition extract_params (request : TavilyExtractRequest.t) : JSON :=
  JObject
    [("urls", JArray (map JString (TavilyExtractRequest.urls request)));
     ("extract_depth", JString (TavilyExtractRequest.extract_depth request));
     ("include_images", JBool (TavilyExtractRequest.include_images request))].

(** [{"Authorization": f"Bearer {TAVILY_API_KEY}"}]. *)
Definition authorization : Headers :=
  [("Authorization", "Bearer " ++ format TAVILY_API_KEY)].

(** [requests.post(url, json=params, headers=headers)]: the call is
    recorded, then it returns or raises as the provider decides. *)
Definition post (url : string) (params : JSON) (headers : Headers)
  : M Response :=
  (emit (Post url params headers) ;;;
   lift (requests_post url params headers))%py.

(** [public_search], the handler of [POST /search]. *)
Definition public_search (request : TavilySearchRequest.t) : M JSON :=
  try_except
    (let params := search_params request in
     let headers := authorization in
     url <- getitem baseURLs "search" ;;
     response <- post url params headers ;;
     if negb (status_code response =? 200)
     then raise (HTTPException 500 "Tavily API error")
     else lift (json response))%py
    (fun e => raise (HTTPException 500 (str e))).

(** [tavily_search], the handler of [POST /tavily-search]. *)
Definition tavily_search (request : TavilySearchRequest.t) : M JSON :=
  try_except
    (let params := search_params request in
     let headers := authorization in
     url <- getitem baseURLs "search" ;;
     response <- post url params headers ;;
     if negb (status_code response =? 200)
     then (print (text response) ;;;
           raise (HTTPException 500 "Tavily API error"))
     else lift (json response))%py
    (fun e => raise (HTTPException 500 (str e))).

(** [tavily_extract], the handler of [POST /tavily-extract]. *)
Definition tavily_extract (request : TavilyExtractRequest.t) : M JSON :=
  try_except
    (let params := extract_params request in
     let headers := authorization in
     url <- getitem baseURLs "extract" ;;
     response <- post url params headers ;;
     if negb (status_code response =? 200)
     then raise (HTTPException 500 "Tavily API error")
     else lift (json response))%py
    (fun e => raise (HTTPException 500 (str e))).

(** *** The application *)

(** The routes, in the order the three [@app.post] decorators register
    them. *)
Definition search_route : Route.t :=
  Route.mk "/search" op_public_search [].

Definition tavily_search_route : Route.t :=
  Route.mk "/tavily-search" op_tavily_search [Depends_get_api_key].

Definition tavily_extract_route : Route.t :=
  Route.mk "/tavily-extract" op_tavily_extract [Depends_get_api_key].

Definition app : list Route.t :=
  [search_route; tavily_search_route; tavily_extract_route].

(** The framework runs the dependencies of a route first; the first one
    that raises ends the request. *)
Fixpoint solve_dependencies (deps : list Dependency)
  (api_key_header : option string) : M unit :=
  match deps with
  | [] => ret tt
  | Depends_get_api_key :: deps' =>
      (get_api_key api_key_header ;;;
       solve_dependencies deps' api_key_header)%py
  end.

(** The request body is validated against the model the handler's
    signature names, and the handler runs on the validated request. *)
Definition run_endpoint (op : Operation) (body : JSON) (log : Log)
  : Reply * Log :=
  match op with
  | op_public_search =>
      match validate_TavilySearchRequest body with
      | inl errors => (Unprocessable errors, log)
      | inr request => render (public_search request log)
      end
  | op_tavily_search =>
      match validate_TavilySearchRequest body with
      | inl errors => (Unprocessable errors, log)
      | inr request => render (tavily_search request log)
      end
  | op_tavily_extract =>
      match validate_TavilyExtractRequest body with
      | inl errors => (Unprocessable errors, log)
      | inr request => render (tavily_extract request log)
      end
  end.

(** One request to a route: the value the [api_key] header scheme
    delivers and the parsed JSON body go in, the reply and the log of the
    effects performed come out. *)
Definition handle (route : Route.t) (api_key_header : option string)
  (body : JSON) : Reply * Log :=
  match solve_dependencies (Route.dependencies route) api_key_header [] with
  | (inl e, log) => (reply_of_exn e, log)
  | (inr _, log) => run_endpoint (Route.endpoint route) body log
  end.

(** *** Tool discovery *)

(** [mcp = FastApiMCP(app, name=..., auth_config=AuthConfig(
    dependencies=[Depends(get_api_key)]))]. *)
Definition mcp : FastApiMCP.t :=
  FastApiMCP.mk app "Tavily Protected MCP"
    (AuthConfig.mk [Depends_get_api_key]).

(** The operations the mounted server publishes as tools.  The
    constructor is given no [include_operations], [exclude_operations],
    [include_tags] or [exclude_tags]; without them the tool list is the
    list of the operations of the application it was given. *)
Definition tools (m : FastApiMCP.t) : list Route.t := FastApiMCP.fastapi m.

(** A discovery request: the dependencies of the [auth_config] gate it,
    then the tools are listed by path. *)
Definition list_tools (m : FastApiMCP.t) (api_key_header : option string)
  : (exn + list string) * Log :=
  (solve_dependencies (AuthConfig.dependencies (FastApiMCP.auth_config m))
     api_key_header ;;;
   ret (map Route.path (tools m)))%py [].

(** ** Properties *)

(** *** The monad and the credential check *)

Lemma py_eq_true (a b : option string) : py_eq a b = true <-> a = b.
Proof.
  destruct a as [x|], b as [y|]; simpl; split; intros H;
    try discriminate; try reflexivity.
  - apply String.eqb_eq in H. now subst.
  - injection H as ->. apply String.eqb_refl.
Qed.

Lemma py_eq_false (a b : option string) : py_eq a b = false <-> a <> b.
Proof.
  split.
  - intros H E. apply py_eq_true in E. congruence.
  - intros H. destruct (py_eq a b) eqn:E; [|reflexivity].
    apply py_eq_true in E. contradiction.
Qed.

Lemma get_api_key_accepts (log : Log) :
  get_api_key API_KEY log = (inr API_KEY, log).
Proof.
  unfold get_api_key.
  now replace (py_eq API_KEY API_KEY) with true
    by (symmetry; now apply py_eq_true).
Qed.

Lemma get_api_key_rejects (api_key_header : option string) (log : Log) :
  api_key_header <> API_KEY ->
  get_api_key api_key_header log
  = (inl (HTTPException 403 "Invalid API key"), log).
Proof.
  intros H. unfold get_api_key.
  apply py_eq_false in H. now rewrite H.
Qed.

(** A route that depends on [get_api_key] stops at the dependency when
    the credential differs from [API_KEY]: the handler is not entered and
    nothing is logged. *)
Lemma handle_rejects (route : Route.t) (api_key_header : option string)
  (body : JSON) :
  Route.dependencies route = [Depends_get_api_key] ->
  api_key_header <> API_KEY ->
  handle route api_key_header body = (Failed 403 "Invalid API key", []).
Proof.
  intros Hd Hk. unfold handle. rewrite Hd. simpl.
  unfold bind. now rewrite (get_api_key_rejects _ _ Hk).
Qed.

(** With the credential equal to [API_KEY] the dependency lets the
    request through to validation and to the handler. *)
Lemma handle_accepts (route : Route.t) (body : JSON) :
  Route.dependencies route = [Depends_get_api_key] ->
  handle route API_KEY body = run_endpoint (Route.endpoint route) body [].
Proof.
  intros Hd. unfold handle. rewrite Hd. simpl.
  unfold bind. now rewrite get_api_key_accepts.
Qed.

(** *** What each handler does, by the provider's answer *)

Ltac run_handler :=
  unfold public_search, tavily_search, tavily_extract, try_except, bind,
    getitem, post, print, emit, lift, ret, raise;
  simpl;
  fold search_url; fold extract_url.

Ltac by_status H :=
  match type of H with
  | ?c <> 200 => apply Z.eqb_neq in H; rewrite H; simpl
  | ?c = 200 => rewrite H; simpl
  end.

Lemma public_search_raised (request : TavilySearchRequest.t) (log : Log)
  (e : exn) :
  requests_post search_url (search_params request) authorization = inl e ->
  public_search request log
  = (inl (HTTPException 500 (str e)),
     (log ++ [Post search_url (search_params request) authorization])%list).
Proof. intros H. run_handler. now rewrite H. Qed.

Lemma public_search_non_200 (request : TavilySearchRequest.t) (log : Log)
  (response : Response) :
  requests_post search_url (search_params request) authorization
  = inr response ->
  status_code response <> 200 ->
  public_search request log
  = (inl (HTTPException 500 (str (HTTPException 500 "Tavily API error"))),
     (log ++ [Post search_url (search_params request) authorization])%list).
Proof. intros H Hs. run_handler. rewrite H. now by_status Hs. Qed.

Lemma public_search_200 (request : TavilySearchRequest.t) (log : Log)
  (response : Response) :
  requests_post search_url (search_params request) authorization
  = inr response ->
  status_code response = 200 ->
  public_search request log
  = (match json response with
     | inl e => inl (HTTPException 500 (str e))
     | inr body => inr body
     end,
     (log ++ [Post search_url (search_params request) authorization])%list).
Proof.
  intros H Hs. run_handler. rewrite H. by_status Hs.
  now destruct (json response).
Qed.

Lemma tavily_search_raised (request : TavilySearchRequest.t) (log : Log)
  (e : exn) :
  requests_post search_url (search_params request) authorization = inl e ->
  tavily_search request log
  = (inl (HTTPException 500 (str e)),
     (log ++ [Post search_url (search_params request) authorization])%list).
Proof. intros H. run_handler. now rewrite H. Qed.

Lemma tavily_search_non_200 (request : TavilySearchRequest.t) (log : Log)
  (response : Response) :
  requests_post search_url (search_params request) authorization
  = inr response ->
  status_code response <> 200 ->
  tavily_search request log
  = (inl (HTTPException 500 (str (HTTPException 500 "Tavily API error"))),
     ((log ++ [Post search_url (search_params request) authorization])
        ++ [Print (text response)])%list).
Proof. intros H Hs. run_handler. rewrite H. now by_status Hs. Qed.

Lemma tavily_search_200 (request : TavilySearchRequest.t) (log : Log)
  (response : Response) :
  requests_post search_url (search_params request) authorization
  = inr response ->
  status_code response = 200 ->
  tavily_search request log
  = (match json response with
     | inl e => inl (HTTPException 500 (str e))
     | inr body => inr body
     end,
     (log ++ [Post search_url (search_params request) authorization])%list).
Proof.
  intros H Hs. run_handler. rewrite H. by_status Hs.
  now destruct (json response).
Qed.

Lemma tavily_extract_raised (request : TavilyExtractRequest.t) (log : Log)
  (e : exn) :
  requests_post extract_url (extract_params request) authorization = inl e ->
  tavily_extract request log
  = (inl (HTTPException 500 (str e)),
     (log ++ [Post extract_url (extract_params request) authorization])%list).
Proof. intros H. run_handler. now rewrite H. Qed.

Lemma tavily_extract_non_200 (request : TavilyExtractRequest.t) (log : Log)
  (response : Response) :
  requests_post extract_url (extract_params request) authorization
  = inr response ->
  status_code response <> 200 ->
  tavily_extract request log
  = (inl (HTTPException 500 (str (HTTPException 500 "Tavily API error"))),
     (log ++ [Post extract_url (extract_params request) authorization])%list).
Proof. intros H Hs. run_handler. rewrite H. now by_status Hs. Qed.

Lemma tavily_extract_200 (request : TavilyExtractRequest.t) (log : Log)
  (response : Response) :
  requests_post extract_url (extract_params request) authorization
  = inr response ->
  status_code response = 200 ->
  tavily_extract request log
  = (match json response with
     | inl e => inl (HTTPException 500 (str e))
     | inr body => inr body
     end,
     (log ++ [Post extract_url (extract_params request) authorization])%list).
Proof.
  intros H Hs. run_handler. rewrite H. by_status Hs.
  now destruct (json response).
Qed.

(** The outgoing calls of a handler: exactly one, whatever the provider
    answers. *)
Lemma snd_render (r : (exn + JSON) * Log) : snd (render r) = snd r.
Proof. now destruct r as [[e|body] log]. Qed.

Lemma fst_render (r : (exn + JSON) * Log) :
  fst (render r)
  = match fst r with inl e => reply_of_exn e | inr body => Returned body end.
Proof. now destruct r as [[e|body] log]. Qed.

Ltac by_answer url params :=
  destruct (requests_post url params authorization) as [e|response] eqn:Hpost;
  [ | destruct (Z.eq_dec (status_code response) 200) as [Hs|Hs] ].

Lemma public_search_calls (request : TavilySearchRequest.t) :
  upstream_calls (snd (public_search request []))
  = [Post search_url (search_params request) authorization].
Proof.
  by_answer search_url (search_params request).
  - now rewrite (public_search_raised _ _ _ Hpost).
  - now rewrite (public_search_200 _ _ _ Hpost Hs).
  - now rewrite (public_search_non_200 _ _ _ Hpost Hs).
Qed.

Lemma tavily_search_calls (request : TavilySearchRequest.t) :
  upstream_calls (snd (tavily_search request []))
  = [Post search_url (search_params request) authorization].
Proof.
  by_answer search_url (search_params request).
  - now rewrite (tavily_search_raised _ _ _ Hpost).
  - now rewrite (tavily_search_200 _ _ _ Hpost Hs).
  - now rewrite (tavily_search_non_200 _ _ _ Hpost Hs).
Qed.

Lemma tavily_extract_calls (request : TavilyExtractRequest.t) :
  upstream_calls (snd (tavily_extract request []))
  = [Post extract_url (extract_params request) authorization].
Proof.
  by_answer extract_url (extract_params request).
  - now rewrite (tavily_extract_raised _ _ _ Hpost).
  - now rewrite (tavily_extract_200 _ _ _ Hpost Hs).
  - now rewrite (tavily_extract_non_200 _ _ _ Hpost Hs).
Qed.

(** *** Validation *)

Lemma literal_validator_outside (literals : list string) (v : JSON) :
  outside literals v -> literal_validator literals v = None.
Proof.
  intros H. destruct v; simpl; try reflexivity.
  destruct (existsb (String.eqb s) literals) eqn:E; [|reflexivity].
  apply existsb_exists in E as (x & Hin & Heq).
  apply String.eqb_eq in Heq. subst x.
  now destruct (H s Hin).
Qed.

Lemma field_rejected {A : Type} (data : dict JSON) (name : string)
  (default : option A) (validator : JSON -> option A) (k : ErrorKind)
  (v : JSON) :
  dict_get name data = Some v ->
  validator v = None ->
  field data name default validator k = inl {| loc := name; kind := k |}.
Proof. intros Hg Hv. unfold field. now rewrite Hg, Hv. Qed.

Lemma ap_fails_here {A B : Type} (f : Validation (A -> B))
  (e : ValidationError) :
  fails_with (ap f (inl e)) e.
Proof.
  destruct f as [es|g]; simpl.
  - exists (es ++ [e])%list. split; [reflexivity|].
    apply in_or_app. right. now left.
  - exists [e]. split; [reflexivity|now left].
Qed.

Lemma ap_fails_before {A B : Type} (f : Validation (A -> B))
  (x : ValidationError + A) (e : ValidationError) :
  fails_with f e -> fails_with (ap f x) e.
Proof.
  intros (es & -> & Hin). destruct x as [e'|a]; simpl.
  - exists (es ++ [e'])%list. split; [reflexivity|].
    apply in_or_app. now left.
  - now exists es.
Qed.

Ltac locate_failure :=
  repeat first [ apply ap_fails_here | apply ap_fails_before ].

Lemma search_enum_rejected (data : dict JSON) (name : string)
  (literals : list string) (v : JSON) :
  In (name, literals) TavilySearchRequest_enums ->
  dict_get name data = Some v ->
  outside literals v ->
  fails_with (validate_TavilySearchRequest (JObject data))
    {| loc := name; kind := literal_error |}.
Proof.
  intros Hin Hg Ho. apply literal_validator_outside in Ho.
  unfold validate_TavilySearchRequest.
  simpl in Hin. destruct Hin as [E|[E|[E|[]]]]; injection E as <- <-.
  - rewrite (field_rejected data "search_depth" _ _ literal_error v Hg Ho).
    locate_failure.
  - rewrite (field_rejected data "topic" _ _ literal_error v Hg Ho).
    locate_failure.
  - rewrite (field_rejected data "time_range" _ _ literal_error v Hg Ho).
    locate_failure.
Qed.

Lemma extract_enum_rejected (data : dict JSON) (name : string)
  (literals : list string) (v : JSON) :
  In (name, literals) TavilyExtractRequest_enums ->
  dict_get name data = Some v ->
  outside literals v ->
  fails_with (validate_TavilyExtractRequest (JObject data))
    {| loc := name; kind := literal_error |}.
Proof.
  intros Hin Hg Ho. apply literal_validator_outside in Ho.
  unfold validate_TavilyExtractRequest.
  simpl in Hin. destruct Hin as [E|[]]; injection E as <- <-.
  rewrite (field_rejected data "extract_depth" _ _ literal_error v Hg Ho).
  locate_failure.
Qed.

(** A protected route never reaches the provider with a body that fails
    validation, whatever the credential. *)
Lemma no_call_on_invalid_body (route : Route.t)
  (api_key_header : option string) (body : JSON)
  (errors : list ValidationError) :
  Route.dependencies route = [Depends_get_api_key] ->
  run_endpoint (Route.endpoint route) body [] = (Unprocessable errors, []) ->
  upstream_calls (snd (handle route api_key_header body)) = [].
Proof.
  intros Hd Hr.
  destruct (py_eq api_key_header API_KEY) eqn:E.
  - apply py_eq_true in E. subst api_key_header.
    now rewrite (handle_accepts route body Hd), Hr.
  - apply py_eq_false in E.
    now rewrite (handle_rejects route api_key_header body Hd E).
Qed.

(** *** Authorization *)

(** C2.  With a secret configured, a request to a protected route
    ([/tavily-search] or [/tavily-extract]) whose [api_key] header is not
    that secret, the request without the header included, is answered 403
    with detail "Invalid API key", and no call to the provider is made:
    the log of the request is empty. *)
Theorem protected_route_rejects_other_credentials
  (secret : string) (route : Route.t) (api_key_header : option string)
  (body : JSON) :
  API_KEY = Some secret ->
  route = tavily_search_route \/ route = tavily_extract_route ->
  api_key_header <> Some secret ->
  fst (handle route api_key_header body) = Failed 403 "Invalid API key"
  /\ upstream_calls (snd (handle route api_key_header body)) = []
  /\ snd (handle route api_key_header body) = [].
Proof.
  intros Hkey Hroute Hne.
  assert (Hd : Route.dependencies route = [Depends_get_api_key])
    by (destruct Hroute; now subst route).
  rewrite <- Hkey in Hne.
  rewrite (handle_rejects route api_key_header body Hd Hne).
  repeat split.
Qed.

(** C3.  A request to a protected route that carries the configured
    secret and a body that validates makes one call to the provider: a
    POST to the operation's URL whose JSON payload has the fields of the
    request model, each with the value of the validated request, and whose
    only header is [Authorization: Bearer <TAVILY_API_KEY>].  The bearer
    token is the provider credential; the caller's secret is sent only if
    the two secrets are the same string. *)
Theorem authorized_call_forwards_model_fields_with_provider_credential
  (secret provider_key : string) :
  API_KEY = Some secret ->
  TAVILY_API_KEY = Some provider_key ->
  (forall (body : JSON) (request : TavilySearchRequest.t),
      validate_TavilySearchRequest body = inr request ->
      upstream_calls (snd (handle tavily_search_route (Some secret) body))
      = [Post search_url (search_params request)
           [("Authorization", "Bearer " ++ provider_key)]]
      /\ json_keys (search_params request)
         = ["query"; "search_depth"; "topic"; "days"; "time_range";
            "max_results"; "include_images"; "include_image_descriptions";
            "include_raw_content"; "include_domains"; "exclude_domains"])
  /\ (forall (body : JSON) (request : TavilyExtractRequest.t),
      validate_TavilyExtractRequest body = inr request ->
      upstream_calls (snd (handle tavily_extract_route (Some secret) body))
      = [Post extract_url (extract_params request)
           [("Authorization", "Bearer " ++ provider_key)]]
      /\ json_keys (extract_params request)
         = ["urls"; "extract_depth"; "include_images"])
  /\ (forall token : string,
      In ("Authorization", "Bearer " ++ token) authorization ->
      token = provider_key)
  /\ (secret <> provider_key ->
      ~ In ("Authorization", "Bearer " ++ secret) authorization).
Proof.
  intros Hkey Hprov.
  assert (Hauth : authorization = [("Authorization", "Bearer " ++ provider_key)])
    by (unfold authorization; now rewrite Hprov).
  assert (Htok : forall token : string,
             In ("Authorization", "Bearer " ++ token) authorization ->
             token = provider_key).
  { intros token Hin. rewrite Hauth in Hin.
    destruct Hin as [E|[]]. now injection E. }
  rewrite <- Hkey. repeat split.
  - rewrite (handle_accepts tavily_search_route body eq_refl). simpl.
    rewrite H, snd_render, tavily_search_calls. now rewrite Hauth.
  - rewrite (handle_accepts tavily_extract_route body eq_refl). simpl.
    rewrite H, snd_render, tavily_extract_calls. now rewrite Hauth.
  - exact Htok.
  - intros Hne Hin. apply Hne. now apply Htok.
Qed.

(** *** Request validation *)

(** C5.  For each enumerated field ([search_depth], [topic], [time_range]
    of the search model, [extract_depth] of the extract model), a body
    whose value for the field is outside the declared literals fails
    validation with a [literal_error] at that field.  The routes that take
    the model answer with that validation failure (the protected ones once
    the credential is accepted) and make no call to the provider, whatever
    the credential. *)
Theorem enum_value_outside_literals_rejected_before_upstream
  (data : dict JSON) (name : string) (literals : list string) (v : JSON) :
  dict_get name data = Some v ->
  outside literals v ->
  (In (name, literals) TavilySearchRequest_enums ->
   exists errors : list ValidationError,
     validate_TavilySearchRequest (JObject data) = inl errors
     /\ In {| loc := name; kind := literal_error |} errors
     /\ (forall api_key_header : option string,
          handle search_route api_key_header (JObject data)
          = (Unprocessable errors, []))
     /\ handle tavily_search_route API_KEY (JObject data)
        = (Unprocessable errors, [])
     /\ (forall api_key_header : option string,
          upstream_calls
            (snd (handle tavily_search_route api_key_header (JObject data)))
          = []))
  /\ (In (name, literals) TavilyExtractRequest_enums ->
      exists errors : list ValidationError,
        validate_TavilyExtractRequest (JObject data) = inl errors
        /\ In {| loc := name; kind := literal_error |} errors
        /\ handle tavily_extract_route API_KEY (JObject data)
           = (Unprocessable errors, [])
        /\ (forall api_key_header : option string,
             upstream_calls
               (snd (handle tavily_extract_route api_key_header (JObject data)))
             = [])).
Proof.
  intros Hg Ho. split; intros Hin.
  - destruct (search_enum_rejected data name literals v Hin Hg Ho)
      as (errors & Hv & He).
    exists errors.
    assert (Hpub : run_endpoint op_public_search (JObject data) []
                   = (Unprocessable errors, []))
      by (unfold run_endpoint; now rewrite Hv).
    assert (Hrun : run_endpoint op_tavily_search (JObject data) []
                   = (Unprocessable errors, []))
      by (unfold run_endpoint; now rewrite Hv).
    split; [exact Hv|]. split; [exact He|]. split; [|split].
    + intros h. unfold handle. simpl solve_dependencies. exact Hpub.
    + now rewrite (handle_accepts tavily_search_route _ eq_refl).
    + intros h.
      exact (no_call_on_invalid_body tavily_search_route h _ errors
               eq_refl Hrun).
  - destruct (extract_enum_rejected data name literals v Hin Hg Ho)
      as (errors & Hv & He).
    exists errors.
    assert (Hrun : run_endpoint op_tavily_extract (JObject data) []
                   = (Unprocessable errors, []))
      by (unfold run_endpoint; now rewrite Hv).
    split; [exact Hv|]. split; [exact He|]. split.
    + now rewrite (handle_accepts tavily_extract_route _ eq_refl).
    + intros h.
      exact (no_call_on_invalid_body tavily_extract_route h _ errors
               eq_refl Hrun).
Qed.

(** C6.  A search body that holds only [query] validates, and the
    validated request has every other field at its declared default:
    [search_depth="basic"], [topic="general"], [days=3],
    [time_range="day"], [max_results=10], the three flags false and both
    domain lists empty.  The payload then sent to the provider is built
    from that defaulted request. *)
Theorem query_only_body_takes_declared_defaults (q : string) :
  validate_TavilySearchRequest (JObject [("query", JString q)])
  = inr (TavilySearchRequest.mk q "basic" "general" 3 "day" 10
           false false false [] [])
  /\ forall api_key_header : option string,
      upstream_calls
        (snd (handle search_route api_key_header
                (JObject [("query", JString q)])))
      = [Post search_url
           (JObject
              [("query", JString q);
               ("search_depth", JString "basic");
               ("topic", JString "general");
               ("days", JInt 3);
               ("time_range", JString "day");
               ("max_results", JInt 10);
               ("include_images", JBool false);
               ("include_image_descriptions", JBool false);
               ("include_raw_content", JBool false);
               ("include_domains", JArray []);
               ("exclude_domains", JArray [])])
           authorization].
Proof.
  assert (Hv : validate_TavilySearchRequest (JObject [("query", JString q)])
               = inr (TavilySearchRequest.mk q "basic" "general" 3 "day" 10
                        false false false [] []))
    by reflexivity.
  split; [exact Hv|].
  intros h. unfold handle. simpl solve_dependencies. unfold ret.
  unfold search_route, Route.endpoint, run_endpoint.
  rewrite Hv, snd_render, public_search_calls. reflexivity.
Qed.

(** *** Failures of the provider *)

Lemma public_search_contained (request : TavilySearchRequest.t) (log : Log) :
  contained (fst (public_search request log)).
Proof.
  by_answer search_url (search_params request).
  - now rewrite (public_search_raised _ _ _ Hpost).
  - rewrite (public_search_200 _ _ _ Hpost Hs). now destruct (json response).
  - now rewrite (public_search_non_200 _ _ _ Hpost Hs).
Qed.

Lemma tavily_search_contained (request : TavilySearchRequest.t) (log : Log) :
  contained (fst (tavily_search request log)).
Proof.
  by_answer search_url (search_params request).
  - now rewrite (tavily_search_raised _ _ _ Hpost).
  - rewrite (tavily_search_200 _ _ _ Hpost Hs). now destruct (json response).
  - now rewrite (tavily_search_non_200 _ _ _ Hpost Hs).
Qed.

Lemma tavily_extract_contained (request : TavilyExtractRequest.t) (log : Log) :
  contained (fst (tavily_extract request log)).
Proof.
  by_answer extract_url (extract_params request).
  - now rewrite (tavily_extract_raised _ _ _ Hpost).
  - rewrite (tavily_extract_200 _ _ _ Hpost Hs). now destruct (json response).
  - now rewrite (tavily_extract_non_200 _ _ _ Hpost Hs).
Qed.

(** C7.  When the call to the provider raises (timeout, DNS failure,
    connection reset, ...) or reading the JSON of a 200 answer raises, each
    of the three handlers ends in an [HTTPException] with status 500 whose
    detail is [str] of that exception.  No handler lets another exception
    out: its outcome is a value or an [HTTPException] with status 500. *)
Theorem exception_during_upstream_call_becomes_500_with_its_message
  (e : exn) :
  (forall (request : TavilySearchRequest.t) (log : Log),
      requests_post search_url (search_params request) authorization = inl e ->
      fst (public_search request log) = inl (HTTPException 500 (str e))
      /\ fst (tavily_search request log) = inl (HTTPException 500 (str e)))
  /\ (forall (request : TavilyExtractRequest.t) (log : Log),
      requests_post extract_url (extract_params request) authorization
      = inl e ->
      fst (tavily_extract request log) = inl (HTTPException 500 (str e)))
  /\ (forall (request : TavilySearchRequest.t) (log : Log)
        (response : Response),
      requests_post search_url (search_params request) authorization
      = inr response ->
      status_code response = 200 ->
      json response = inl e ->
      fst (public_search request log) = inl (HTTPException 500 (str e))
      /\ fst (tavily_search request log) = inl (HTTPException 500 (str e)))
  /\ (forall (request : TavilyExtractRequest.t) (log : Log)
        (response : Response),
      requests_post extract_url (extract_params request) authorization
      = inr response ->
      status_code response = 200 ->
      json response = inl e ->
      fst (tavily_extract request log) = inl (HTTPException 500 (str e)))
  /\ (forall (request : TavilySearchRequest.t) (log : Log),
      contained (fst (public_search request log))
      /\ contained (fst (tavily_search request log)))
  /\ (forall (request : TavilyExtractRequest.t) (log : Log),
      contained (fst (tavily_extract request log))).
Proof.
  split; [|split; [|split; [|split; [|split]]]].
  - intros request log H.
    now rewrite (public_search_raised _ _ _ H), (tavily_search_raised _ _ _ H).
  - intros request log H. now rewrite (tavily_extract_raised _ _ _ H).
  - intros request log response H Hs Hj.
    rewrite (public_search_200 _ _ _ H Hs), (tavily_search_200 _ _ _ H Hs).
    now rewrite Hj.
  - intros request log response H Hs Hj.
    rewrite (tavily_extract_200 _ _ _ H Hs). now rewrite Hj.
  - intros request log. split.
    + apply public_search_contained.
    + apply tavily_search_contained.
  - intros request log. apply tavily_extract_contained.
Qed.

(** C9.  On an answer of the provider whose status is not 200, the
    protected search handler prints the text of the answer after the call
    and before it fails; the public search handler and the extract handler
    print nothing.  Apart from that line the three behave alike: one call
    to the provider and the same failure. *)
Theorem only_protected_search_prints_provider_body
  (search : TavilySearchRequest.t) (extract : TavilyExtractRequest.t)
  (log : Log) (response response' : Response) :
  requests_post search_url (search_params search) authorization
  = inr response ->
  status_code response <> 200 ->
  requests_post extract_url (extract_params extract) authorization
  = inr response' ->
  status_code response' <> 200 ->
  snd (tavily_search search log)
  = (snd (public_search search log) ++ [Print (text response)])%list
  /\ snd (public_search search log)
     = (log ++ [Post search_url (search_params search) authorization])%list
  /\ snd (tavily_extract extract log)
     = (log ++ [Post extract_url (extract_params extract) authorization])%list
  /\ printed (snd (tavily_search search [])) = [Print (text response)]
  /\ printed (snd (public_search search [])) = []
  /\ printed (snd (tavily_extract extract [])) = []
  /\ fst (tavily_search search log) = fst (public_search search log)
  /\ fst (tavily_extract extract log) = fst (public_search search log).
Proof.
  intros H Hs H' Hs'.
  rewrite !(tavily_search_non_200 _ _ _ H Hs).
  rewrite !(public_search_non_200 _ _ _ H Hs).
  rewrite !(tavily_extract_non_200 _ _ _ H' Hs').
  simpl. repeat split.
Qed.

(** *** The two search handlers *)

(** C10.  On every validated search request and every behaviour of the
    provider, [public_search] and [tavily_search] end in the same outcome
    (the JSON of a 200 answer, or the same failure) and make the same call
    to the provider, same URL, payload and headers; their logs differ at
    most by the line the protected handler prints.  Hence the route
    [/tavily-search], once its credential check has passed, gives the
    reply of [/search] on every body. *)
Theorem public_and_protected_search_agree
  (request : TavilySearchRequest.t) (log : Log) :
  fst (public_search request log) = fst (tavily_search request log)
  /\ upstream_calls (snd (public_search request []))
     = upstream_calls (snd (tavily_search request []))
  /\ upstream_calls (snd (public_search request []))
     = [Post search_url (search_params request) authorization]
  /\ (snd (tavily_search request log) = snd (public_search request log)
      \/ exists line : string,
          snd (tavily_search request log)
          = (snd (public_search request log) ++ [Print line])%list)
  /\ (forall (body : JSON) (api_key_header : option string),
       fst (handle tavily_search_route API_KEY body)
       = fst (handle search_route api_key_header body)).
Proof.
  split; [|split; [|split; [|split]]].
  - by_answer search_url (search_params request).
    + now rewrite (public_search_raised _ _ _ Hpost),
        (tavily_search_raised _ _ _ Hpost).
    + now rewrite (public_search_200 _ _ _ Hpost Hs),
        (tavily_search_200 _ _ _ Hpost Hs).
    + now rewrite (public_search_non_200 _ _ _ Hpost Hs),
        (tavily_search_non_200 _ _ _ Hpost Hs).
  - now rewrite public_search_calls, tavily_search_calls.
  - apply public_search_calls.
  - by_answer search_url (search_params request).
    + left. now rewrite (public_search_raised _ _ _ Hpost),
        (tavily_search_raised _ _ _ Hpost).
    + left. now rewrite (public_search_200 _ _ _ Hpost Hs),
        (tavily_search_200 _ _ _ Hpost Hs).
    + right. exists (text response).
      now rewrite (public_search_non_200 _ _ _ Hpost Hs),
        (tavily_search_non_200 _ _ _ Hpost Hs).
  - intros body h.
    rewrite (handle_accepts tavily_search_route body eq_refl).
    unfold handle. simpl solve_dependencies. unfold ret.
    unfold search_route, tavily_search_route, Route.endpoint, run_endpoint.
    destruct (validate_TavilySearchRequest body) as [errors|req];
      [reflexivity|].
    rewrite !fst_render.
    by_answer search_url (search_params req).
    + now rewrite (public_search_raised _ _ _ Hpost),
        (tavily_search_raised _ _ _ Hpost).
    + now rewrite (public_search_200 _ _ _ Hpost Hs),
        (tavily_search_200 _ _ _ Hpost Hs).
    + now rewrite (public_search_non_200 _ _ _ Hpost Hs),
        (tavily_search_non_200 _ _ _ Hpost Hs).
Qed.

(** *** Tool discovery *)

(** C8, as the code has it.  The discovery surface is built from the whole
    application, with no filter on its operations: it lists [/search],
    [/tavily-search] and [/tavily-extract].  It is gated by the dependency
    of the protected routes, [get_api_key]: a discovery request whose
    credential differs from [API_KEY] is answered 403 and one that carries
    [API_KEY] receives the list. *)
Theorem discovery_lists_every_route_behind_get_api_key :
  map Route.path (tools mcp) = ["/search"; "/tavily-search"; "/tavily-extract"]
  /\ AuthConfig.dependencies (FastApiMCP.auth_config mcp)
     = Route.dependencies tavily_search_route
  /\ AuthConfig.dependencies (FastApiMCP.auth_config mcp)
     = Route.dependencies tavily_extract_route
  /\ (forall api_key_header : option string,
       api_key_header <> API_KEY ->
       list_tools mcp api_key_header
       = (inl (HTTPException 403 "Invalid API key"), []))
  /\ list_tools mcp API_KEY
     = (inr ["/search"; "/tavily-search"; "/tavily-extract"], []).
Proof.
  split; [reflexivity|]. split; [reflexivity|]. split; [reflexivity|].
  split.
  - intros h Hne. unfold list_tools. simpl. unfold bind.
    now rewrite (get_api_key_rejects h [] Hne).
  - unfold list_tools. simpl. unfold bind.
    now rewrite get_api_key_accepts.
Qed.

(** ** Further properties of validation *)

Lemma ap_inr {A B : Type} (f : Validation (A -> B)) (x : ValidationError + A)
  (b : B) :
  ap f x = inr b ->
  exists (g : A -> B) (a : A), f = inr g /\ x = inr a /\ b = g a.
Proof.
  destruct f as [es|g], x as [e|a]; simpl; intros H; try discriminate H.
  injection H as <-. now exists g, a.
Qed.

Lemma field_inr {A : Type} (data : dict JSON) (name : string)
  (default : option A) (validator : JSON -> option A) (k : ErrorKind) (a : A) :
  field data name default validator k = inr a ->
  (dict_get name data = None /\ default = Some a)
  \/ (exists v : JSON, dict_get name data = Some v /\ validator v = Some a).
Proof.
  unfold field. destruct (dict_get name data) as [v|].
  - destruct (validator v) as [a'|] eqn:E; intros H; [|discriminate H].
    injection H as <-. right. now exists v.
  - destruct default as [a'|]; intros H; [|discriminate H].
    injection H as <-. now left.
Qed.

Lemma field_ext {A : Type} (data data' : dict JSON) (name : string)
  (default : option A) (validator : JSON -> option A) (k : ErrorKind) :
  dict_get name data = dict_get name data' ->
  field data name default validator k = field data' name default validator k.
Proof. intros H. unfold field. now rewrite H. Qed.

Lemma field_absent {A : Type} (data : dict JSON) (name : string)
  (validator : JSON -> option A) (k : ErrorKind) :
  dict_get name data = None ->
  field data name None validator k = inl {| loc := name; kind := missing |}.
Proof. intros H. unfold field. now rewrite H. Qed.

Lemma field_present {A : Type} (data : dict JSON) (name : string)
  (default : option A) (validator : JSON -> option A) (k : ErrorKind)
  (v : JSON) (a : A) :
  dict_get name data = Some v ->
  validator v = Some a ->
  field data name default validator k = inr a.
Proof. intros Hg Hv. unfold field. now rewrite Hg, Hv. Qed.

Lemma str_validator_some (v : JSON) (s : string) :
  str_validator v = Some s <-> v = JString s.
Proof.
  split.
  - destruct v; simpl; intros H; try discriminate H. now injection H as ->.
  - now intros ->.
Qed.

Lemma literal_validator_some (literals : list string) (v : JSON) (s : string) :
  literal_validator literals v = Some s <-> v = JString s /\ In s literals.
Proof.
  split.
  - destruct v; simpl; intros H; try discriminate H.
    destruct (existsb (String.eqb s0) literals) eqn:E; [|discriminate H].
    injection H as <-. split; [reflexivity|].
    apply existsb_exists in E as (x & Hin & Heq).
    apply String.eqb_eq in Heq. now subst x.
  - intros (-> & Hin). simpl.
    replace (existsb (String.eqb s) literals) with true; [reflexivity|].
    symmetry. apply existsb_exists. exists s. split; [exact Hin|].
    apply String.eqb_refl.
Qed.

Lemma all_str_some (items : list JSON) (l : list string) :
  all_str items = Some l <-> items = map JString l.
Proof.
  revert l. induction items as [|v items IH]; intros l; simpl.
  - split.
    + intros H. injection H as <-. reflexivity.
    + destruct l; [reflexivity|discriminate].
  - split.
    + destruct (str_validator v) as [s|] eqn:Ev; [|discriminate].
      destruct (all_str items) as [l'|]; [|discriminate].
      intros H. injection H as <-. simpl.
      apply str_validator_some in Ev. subst v.
      f_equal. now apply IH.
    + destruct l as [|s l]; [discriminate|]. simpl.
      intros H. injection H as -> ->. simpl.
      now replace (all_str (map JString l)) with (Some l)
        by (symmetry; now apply IH).
Qed.

Lemma list_str_validator_some (v : JSON) (l : list string) :
  list_str_validator v = Some l <-> v = JArray (map JString l).
Proof.
  split.
  - destruct v; simpl; intros H; try discriminate H.
    apply all_str_some in H. now subst.
  - intros ->. simpl. now apply all_str_some.
Qed.

(** A search request that validates comes, field by field, from the
    fields of the body. *)
Lemma validate_TavilySearchRequest_inr (body : JSON)
  (request : TavilySearchRequest.t) :
  validate_TavilySearchRequest body = inr request ->
  exists data : dict JSON,
    body = JObject data
    /\ field data "query" None str_validator type_error
       = inr (TavilySearchRequest.query request)
    /\ field data "search_depth" (Some "basic")
         (literal_validator search_depth_literals) literal_error
       = inr (TavilySearchRequest.search_depth request)
    /\ field data "topic" (Some "general")
         (literal_validator topic_literals) literal_error
       = inr (TavilySearchRequest.topic request)
    /\ field data "days" (Some 3) int_validator type_error
       = inr (TavilySearchRequest.days request)
    /\ field data "time_range" (Some "day")
         (literal_validator time_range_literals) literal_error
       = inr (TavilySearchRequest.time_range request)
    /\ field data "max_results" (Some 10) int_validator type_error
       = inr (TavilySearchRequest.max_results request)
    /\ field data "include_images" (Some false) bool_validator type_error
       = inr (TavilySearchRequest.include_images request)
    /\ field data "include_image_descriptions" (Some false) bool_validator
         type_error
       = inr (TavilySearchRequest.include_image_descriptions request)
    /\ field data "include_raw_content" (Some false) bool_validator type_error
       = inr (TavilySearchRequest.include_raw_content request)
    /\ field data "include_domains" (Some []) list_str_validator type_error
       = inr (TavilySearchRequest.include_domains request)
    /\ field data "exclude_domains" (Some []) list_str_validator type_error
       = inr (TavilySearchRequest.exclude_domains request).
Proof.
  destruct body; try (intros H; discriminate H).
  unfold validate_TavilySearchRequest. intros H. exists members.
  split; [reflexivity|].
  repeat match type of H with
         | ap _ _ = inr _ =>
             let g := fresh "g" in
             let a := fresh "a" in
             let Hx := fresh "Hx" in
             apply ap_inr in H as (g & a & H & Hx & ->)
         end.
  injection H as <-. simpl. repeat split; assumption.
Qed.

Lemma validate_TavilyExtractRequest_inr (body : JSON)
  (request : TavilyExtractRequest.t) :
  validate_TavilyExtractRequest body = inr request ->
  exists data : dict JSON,
    body = JObject data
    /\ field data "urls" None list_str_validator type_error
       = inr (TavilyExtractRequest.urls request)
    /\ field data "extract_depth" (Some "basic")
         (literal_validator extract_depth_literals) literal_error
       = inr (TavilyExtractRequest.extract_depth request)
    /\ field data "include_images" (Some false) bool_validator type_error
       = inr (TavilyExtractRequest.include_images request).
Proof.
  destruct body; try (intros H; discriminate H).
  unfold validate_TavilyExtractRequest. intros H. exists members.
  split; [reflexivity|].
  repeat match type of H with
         | ap _ _ = inr _ =>
             let g := fresh "g" in
             let a := fresh "a" in
             let Hx := fresh "Hx" in
             apply ap_inr in H as (g & a & H & Hx & ->)
         end.
  injection H as <-. simpl. repeat split; assumption.
Qed.

Lemma literal_field_in (data : dict JSON) (name default : string)
  (literals : list string) (s : string) :
  In default literals ->
  field data name (Some default) (literal_validator literals) literal_error
  = inr s ->
  In s literals.
Proof.
  intros Hd H. apply field_inr in H as [(_ & E)|(v & _ & E)].
  - injection E as <-. exact Hd.
  - now apply literal_validator_some in E.
Qed.

Lemma search_literals_kept (body : JSON) (request : TavilySearchRequest.t) :
  validate_TavilySearchRequest body = inr request ->
  In (TavilySearchRequest.search_depth request) search_depth_literals
  /\ In (TavilySearchRequest.topic request) topic_literals
  /\ In (TavilySearchRequest.time_range request) time_range_literals.
Proof.
  intros H.
  apply validate_TavilySearchRequest_inr in H
    as (data & _ & _ & Hsd & Htopic & _ & Htr & _).
  split; [|split].
  - apply (fun Hd => literal_field_in _ _ _ _ _ Hd Hsd). now left.
  - apply (fun Hd => literal_field_in _ _ _ _ _ Hd Htopic). now left.
  - apply (fun Hd => literal_field_in _ _ _ _ _ Hd Htr). now left.
Qed.

Lemma extract_literals_kept (body : JSON) (request : TavilyExtractRequest.t) :
  validate_TavilyExtractRequest body = inr request ->
  In (TavilyExtractRequest.extract_depth request) extract_depth_literals.
Proof.
  intros H.
  apply validate_TavilyExtractRequest_inr in H as (data & _ & _ & Hed & _).
  apply (fun Hd => literal_field_in _ _ _ _ _ Hd Hed). now left.
Qed.

(** X1.  Validation keeps the enumerated fields inside their literal sets:
    in every search request that validates, [search_depth], [topic] and
    [time_range] are declared literals, whether the body gave them or the
    default was taken; likewise [extract_depth] of an extract request. *)
Theorem validated_request_has_declared_literals :
  (forall (body : JSON) (request : TavilySearchRequest.t),
      validate_TavilySearchRequest body = inr request ->
      In (TavilySearchRequest.search_depth request) search_depth_literals
      /\ In (TavilySearchRequest.topic request) topic_literals
      /\ In (TavilySearchRequest.time_range request) time_range_literals)
  /\ (forall (body : JSON) (request : TavilyExtractRequest.t),
      validate_TavilyExtractRequest body = inr request ->
      In (TavilyExtractRequest.extract_depth request) extract_depth_literals).
Proof.
  split.
  - exact search_literals_kept.
  - exact extract_literals_kept.
Qed.

Ltac accept_fields Hint Hbool :=
  repeat (erewrite field_present;
          [ | reflexivity
            | first [ apply Hint
                    | apply Hbool
                    | apply literal_validator_some;
                      split; [reflexivity|assumption]
                    | apply list_str_validator_some; reflexivity
                    | reflexivity ] ]).

Lemma search_params_validate (request : TavilySearchRequest.t) :
  (forall n : Z, int_validator (JInt n) = Some n) ->
  (forall b : bool, bool_validator (JBool b) = Some b) ->
  In (TavilySearchRequest.search_depth request) search_depth_literals ->
  In (TavilySearchRequest.topic request) topic_literals ->
  In (TavilySearchRequest.time_range request) time_range_literals ->
  validate_TavilySearchRequest (search_params request) = inr request.
Proof.
  intros Hint Hbool Hsd Htopic Htr.
  unfold validate_TavilySearchRequest, search_params.
  accept_fields Hint Hbool.
  now destruct request.
Qed.

Lemma extract_params_validate (request : TavilyExtractRequest.t) :
  (forall b : bool, bool_validator (JBool b) = Some b) ->
  In (TavilyExtractRequest.extract_depth request) extract_depth_literals ->
  validate_TavilyExtractRequest (extract_params request) = inr request.
Proof.
  intros Hbool Hed.
  unfold validate_TavilyExtractRequest, extract_params.
  accept_fields Hbool Hbool.
  now destruct request.
Qed.

(** X2.  The payload a handler builds is itself a body of the model it
    came from.  Provided the [int] and [bool] validators take a JSON
    integer and a JSON boolean as they are, the [params] built from a
    request that validated validate again, to the same request; so do the
    [params] of any request whose enumerated fields are declared
    literals. *)
Theorem params_validate_back_to_the_request :
  (forall n : Z, int_validator (JInt n) = Some n) ->
  (forall b : bool, bool_validator (JBool b) = Some b) ->
  (forall (body : JSON) (request : TavilySearchRequest.t),
      validate_TavilySearchRequest body = inr request ->
      validate_TavilySearchRequest (search_params request) = inr request)
  /\ (forall (body : JSON) (request : TavilyExtractRequest.t),
      validate_TavilyExtractRequest body = inr request ->
      validate_TavilyExtractRequest (extract_params request) = inr request)
  /\ (forall request : TavilySearchRequest.t,
      In (TavilySearchRequest.search_depth request) search_depth_literals ->
      In (TavilySearchRequest.topic request) topic_literals ->
      In (TavilySearchRequest.time_range request) time_range_literals ->
      validate_TavilySearchRequest (search_params request) = inr request)
  /\ (forall request : TavilyExtractRequest.t,
      In (TavilyExtractRequest.extract_depth request) extract_depth_literals ->
      validate_TavilyExtractRequest (extract_params request) = inr request).
Proof.
  intros Hint Hbool.
  split; [|split; [|split]].
  - intros body request H.
    destruct (search_literals_kept body request H) as (H1 & H2 & H3).
    now apply search_params_validate.
  - intros body request H.
    apply extract_params_validate;
      [exact Hbool|exact (extract_literals_kept body request H)].
  - intros request. now apply search_params_validate.
  - intros request. now apply extract_params_validate.
Qed.

Lemma field_default {A : Type} (data : dict JSON) (name : string) (d a : A)
  (validator : JSON -> option A) (k : ErrorKind) :
  dict_get name data = None ->
  field data name (Some d) validator k = inr a ->
  a = d.
Proof.
  intros Hg H. apply field_inr in H as [(_ & E)|(v & Hv & _)].
  - now injection E.
  - rewrite Hg in Hv. discriminate Hv.
Qed.

Lemma field_given {A : Type} (data : dict JSON) (name : string)
  (default : option A) (a : A) (validator : JSON -> option A) (k : ErrorKind)
  (v : JSON) :
  dict_get name data = Some v ->
  field data name default validator k = inr a ->
  validator v = Some a.
Proof.
  intros Hg H. apply field_inr in H as [(Hn & _)|(v' & Hv & E)].
  - rewrite Hg in Hn. discriminate Hn.
  - rewrite Hg in Hv. now injection Hv as ->.
Qed.

Ltac forwarded Hg Hfield :=
  pose proof (field_given _ _ _ _ _ _ _ Hg Hfield) as Hgiven;
  first [ apply str_validator_some in Hgiven
        | apply literal_validator_some in Hgiven as (Hgiven & _)
        | apply list_str_validator_some in Hgiven ];
  now rewrite Hgiven.

Ltac defaulted Hg Hfield :=
  now rewrite (field_default _ _ _ _ _ _ Hg Hfield).

(** X3.  What a search body gives for [query], for an enumerated field or
    for a domain list reaches the provider as given: in the [params] of
    the validated request that field holds the very JSON value of the
    body.  Every field the body leaves out is sent with its declared
    default, whatever the other fields hold. *)
Theorem search_fields_forwarded_or_defaulted
  (body : JSON) (request : TavilySearchRequest.t) :
  validate_TavilySearchRequest body = inr request ->
  (forall (name : string) (v : JSON),
      In name ["query"; "search_depth"; "topic"; "time_range";
               "include_domains"; "exclude_domains"] ->
      json_get name body = Some v ->
      json_get name (search_params request) = Some v)
  /\ (forall (name : string) (d : JSON),
      In (name, d)
        [("search_depth", JString "basic");
         ("topic", JString "general");
         ("days", JInt 3);
         ("time_range", JString "day");
         ("max_results", JInt 10);
         ("include_images", JBool false);
         ("include_image_descriptions", JBool false);
         ("include_raw_content", JBool false);
         ("include_domains", JArray []);
         ("exclude_domains", JArray [])] ->
      json_get name body = None ->
      json_get name (search_params request) = Some d).
Proof.
  intros H.
  apply validate_TavilySearchRequest_inr in H
    as (data & -> & Hq & Hsd & Htopic & Hdays & Htr & Hmax & Himg & Hdesc
        & Hraw & Hinc & Hexc).
  split.
  - intros name v Hin Hg. simpl in Hg, Hin.
    destruct Hin as [<-|[<-|[<-|[<-|[<-|[<-|[]]]]]]]; simpl.
    + forwarded Hg Hq.
    + forwarded Hg Hsd.
    + forwarded Hg Htopic.
    + forwarded Hg Htr.
    + forwarded Hg Hinc.
    + forwarded Hg Hexc.
  - intros name d Hin Hg. simpl in Hg, Hin.
    destruct Hin as [E|[E|[E|[E|[E|[E|[E|[E|[E|[E|[]]]]]]]]]]];
      injection E as <- <-; simpl.
    + defaulted Hg Hsd.
    + defaulted Hg Htopic.
    + defaulted Hg Hdays.
    + defaulted Hg Htr.
    + defaulted Hg Hmax.
    + defaulted Hg Himg.
    + defaulted Hg Hdesc.
    + defaulted Hg Hraw.
    + defaulted Hg Hinc.
    + defaulted Hg Hexc.
Qed.

(** X4.  The same for an extract body: [urls] and [extract_depth] reach
    the provider as the body gives them, and a field left out is sent as
    its default, [extract_depth="basic"] and [include_images=false].  A
    body that holds only [urls], any list of strings and the empty one
    too, validates. *)
Theorem extract_fields_forwarded_or_defaulted :
  (forall (body : JSON) (request : TavilyExtractRequest.t),
      validate_TavilyExtractRequest body = inr request ->
      (forall (name : string) (v : JSON),
          In name ["urls"; "extract_depth"] ->
          json_get name body = Some v ->
          json_get name (extract_params request) = Some v)
      /\ (forall (name : string) (d : JSON),
          In (name, d)
            [("extract_depth", JString "basic");
             ("include_images", JBool false)] ->
          json_get name body = None ->
          json_get name (extract_params request) = Some d))
  /\ (forall l : list string,
      validate_TavilyExtractRequest
        (JObject [("urls", JArray (map JString l))])
      = inr (TavilyExtractRequest.mk l "basic" false)).
Proof.
  split.
  - intros body request H.
    apply validate_TavilyExtractRequest_inr in H
      as (data & -> & Hurls & Hed & Himg).
    split.
    + intros name v Hin Hg. simpl in Hg, Hin.
      destruct Hin as [<-|[<-|[]]]; simpl.
      * forwarded Hg Hurls.
      * forwarded Hg Hed.
    + intros name d Hin Hg. simpl in Hg, Hin.
      destruct Hin as [E|[E|[]]]; injection E as <- <-; simpl.
      * defaulted Hg Hed.
      * defaulted Hg Himg.
  - intros l. unfold validate_TavilyExtractRequest.
    rewrite (field_present [("urls", JArray (map JString l))] "urls" None
               list_str_validator type_error (JArray (map JString l)) l
               eq_refl (proj2 (list_str_validator_some _ _) eq_refl)).
    reflexivity.
Qed.

Lemma validate_search_ext (data data' : dict JSON) :
  (forall name : string,
      In name TavilySearchRequest_fields ->
      dict_get name data = dict_get name data') ->
  validate_TavilySearchRequest (JObject data)
  = validate_TavilySearchRequest (JObject data').
Proof.
  intros H. unfold validate_TavilySearchRequest.
  repeat (erewrite (field_ext data data');
          [ | apply H; unfold TavilySearchRequest_fields; simpl; tauto ]).
  reflexivity.
Qed.

Lemma validate_extract_ext (data data' : dict JSON) :
  (forall name : string,
      In name TavilyExtractRequest_fields ->
      dict_get name data = dict_get name data') ->
  validate_TavilyExtractRequest (JObject data)
  = validate_TavilyExtractRequest (JObject data').
Proof.
  intros H. unfold validate_TavilyExtractRequest.
  repeat (erewrite (field_ext data data');
          [ | apply H; unfold TavilyExtractRequest_fields; simpl; tauto ]).
  reflexivity.
Qed.

Lemma dict_get_other {V : Type} (name key : string) (v : V) (d : dict V) :
  name <> key -> dict_get name ((key, v) :: d) = dict_get name d.
Proof.
  intros H. simpl. apply String.eqb_neq in H. now rewrite H.
Qed.

(** The reply of a route depends on the body through validation only. *)
Lemma handle_ext (route : Route.t) (api_key_header : option string)
  (body body' : JSON) :
  validate_TavilySearchRequest body = validate_TavilySearchRequest body' ->
  validate_TavilyExtractRequest body = validate_TavilyExtractRequest body' ->
  handle route api_key_header body = handle route api_key_header body'.
Proof.
  intros Hs He. unfold handle, run_endpoint. now rewrite Hs, He.
Qed.

(** X5.  Validation reads the declared fields of a body and nothing else:
    two bodies that agree on the declared fields of a model validate
    alike.  Hence a key that neither model declares changes nothing on any
    route: the reply and the effects are those of the body without it. *)
Theorem undeclared_keys_are_ignored :
  (forall data data' : dict JSON,
      (forall name : string,
          In name TavilySearchRequest_fields ->
          dict_get name data = dict_get name data') ->
      validate_TavilySearchRequest (JObject data)
      = validate_TavilySearchRequest (JObject data'))
  /\ (forall data data' : dict JSON,
      (forall name : string,
          In name TavilyExtractRequest_fields ->
          dict_get name data = dict_get name data') ->
      validate_TavilyExtractRequest (JObject data)
      = validate_TavilyExtractRequest (JObject data'))
  /\ (forall (key : string) (v : JSON) (data : dict JSON) (route : Route.t)
        (api_key_header : option string),
      ~ In key TavilySearchRequest_fields ->
      ~ In key TavilyExtractRequest_fields ->
      handle route api_key_header (JObject ((key, v) :: data))
      = handle route api_key_header (JObject data)).
Proof.
  split; [exact validate_search_ext|]. split; [exact validate_extract_ext|].
  intros key v data route h Hs He. apply handle_ext.
  - apply validate_search_ext. intros name Hin. apply dict_get_other.
    intros ->. now apply Hs.
  - apply validate_extract_ext. intros name Hin. apply dict_get_other.
    intros ->. now apply He.
Qed.

Lemma search_route_invalid (body : JSON) (errors : list ValidationError)
  (api_key_header : option string) :
  validate_TavilySearchRequest body = inl errors ->
  handle search_route api_key_header body = (Unprocessable errors, [])
  /\ upstream_calls (snd (handle tavily_search_route api_key_header body)) = [].
Proof.
  intros Hv. split.
  - unfold handle. simpl. now rewrite Hv.
  - apply (no_call_on_invalid_body tavily_search_route _ _ errors eq_refl).
    simpl. now rewrite Hv.
Qed.

Lemma extract_route_invalid (body : JSON) (errors : list ValidationError)
  (api_key_header : option string) :
  validate_TavilyExtractRequest body = inl errors ->
  upstream_calls (snd (handle tavily_extract_route api_key_header body)) = [].
Proof.
  intros Hv.
  apply (no_call_on_invalid_body tavily_extract_route _ _ errors eq_refl).
  simpl. now rewrite Hv.
Qed.

(** X6.  The field without a default is required.  A body that has no
    [query], be it an object without that key or not an object at all, is
    not a search request: validation reports [query] missing (or the body
    itself ill-typed), [/search] answers with that failure and neither
    search route calls the provider.  A [query] that is not a JSON string
    is a type error.  The same holds of [urls] on [/tavily-extract]. *)
Theorem body_without_required_field_is_rejected (body : JSON) :
  (json_get "query" body = None ->
   exists errors : list ValidationError,
     validate_TavilySearchRequest body = inl errors
     /\ (In {| loc := "query"; kind := missing |} errors
         \/ errors = [{| loc := "body"; kind := type_error |}])
     /\ (forall api_key_header : option string,
          handle search_route api_key_header body = (Unprocessable errors, [])
          /\ upstream_calls
               (snd (handle tavily_search_route api_key_header body))
             = []))
  /\ (forall v : JSON,
      json_get "query" body = Some v ->
      (forall s : string, v <> JString s) ->
      exists errors : list ValidationError,
        validate_TavilySearchRequest body = inl errors
        /\ In {| loc := "query"; kind := type_error |} errors)
  /\ (json_get "urls" body = None ->
      exists errors : list ValidationError,
        validate_TavilyExtractRequest body = inl errors
        /\ (In {| loc := "urls"; kind := missing |} errors
            \/ errors = [{| loc := "body"; kind := type_error |}])
        /\ (forall api_key_header : option string,
             upstream_calls
               (snd (handle tavily_extract_route api_key_header body))
             = [])).
Proof.
  split; [|split].
  - intros Hg.
    assert (Hv : exists errors : list ValidationError,
               validate_TavilySearchRequest body = inl errors
               /\ (In {| loc := "query"; kind := missing |} errors
                   \/ errors = [{| loc := "body"; kind := type_error |}])).
    { destruct body;
        try (eexists; split; [reflexivity|right; reflexivity]).
      simpl in Hg.
      assert (F : fails_with (validate_TavilySearchRequest (JObject members))
                    {| loc := "query"; kind := missing |}).
      { unfold validate_TavilySearchRequest.
        rewrite (field_absent members "query" str_validator type_error Hg).
        locate_failure. }
      destruct F as (errors & E & Hin). exists errors. split; [exact E|].
      now left. }
    destruct Hv as (errors & Hv & Hkind). exists errors.
    split; [exact Hv|]. split; [exact Hkind|].
    intros h. now apply search_route_invalid.
  - intros v Hg Hv. destruct body; try discriminate Hg. simpl in Hg.
    assert (E : str_validator v = None).
    { destruct v; try reflexivity. now destruct (Hv s). }
    unfold validate_TavilySearchRequest.
    rewrite (field_rejected members "query" None str_validator type_error v
               Hg E).
    locate_failure.
  - intros Hg.
    assert (Hv : exists errors : list ValidationError,
               validate_TavilyExtractRequest body = inl errors
               /\ (In {| loc := "urls"; kind := missing |} errors
                   \/ errors = [{| loc := "body"; kind := type_error |}])).
    { destruct body;
        try (eexists; split; [reflexivity|right; reflexivity]).
      simpl in Hg.
      assert (F : fails_with (validate_TavilyExtractRequest (JObject members))
                    {| loc := "urls"; kind := missing |}).
      { unfold validate_TavilyExtractRequest.
        rewrite (field_absent members "urls" list_str_validator type_error Hg).
        locate_failure. }
      destruct F as (errors & E & Hin). exists errors. split; [exact E|].
      now left. }
    destruct Hv as (errors & Hv & Hkind). exists errors.
    split; [exact Hv|]. split; [exact Hkind|].
    intros h. now apply (extract_route_invalid body errors).
Qed.

(** ** Further properties of the handlers and routes *)

Lemma upstream_calls_app (log log' : Log) :
  upstream_calls (log ++ log')%list
  = (upstream_calls log ++ upstream_calls log')%list.
Proof. apply filter_app. Qed.

Lemma public_search_calls_from (request : TavilySearchRequest.t) (log : Log) :
  upstream_calls (snd (public_search request log))
  = (upstream_calls log
       ++ [Post search_url (search_params request) authorization])%list.
Proof.
  by_answer search_url (search_params request).
  - rewrite (public_search_raised _ _ _ Hpost). apply upstream_calls_app.
  - rewrite (public_search_200 _ _ _ Hpost Hs). apply upstream_calls_app.
  - rewrite (public_search_non_200 _ _ _ Hpost Hs). apply upstream_calls_app.
Qed.

Lemma tavily_search_calls_from (request : TavilySearchRequest.t) (log : Log) :
  upstream_calls (snd (tavily_search request log))
  = (upstream_calls log
       ++ [Post search_url (search_params request) authorization])%list.
Proof.
  by_answer search_url (search_params request).
  - rewrite (tavily_search_raised _ _ _ Hpost). apply upstream_calls_app.
  - rewrite (tavily_search_200 _ _ _ Hpost Hs). apply upstream_calls_app.
  - rewrite (tavily_search_non_200 _ _ _ Hpost Hs). cbn [snd].
    rewrite !upstream_calls_app. simpl. now rewrite app_nil_r.
Qed.

Lemma tavily_extract_calls_from (request : TavilyExtractRequest.t)
  (log : Log) :
  upstream_calls (snd (tavily_extract request log))
  = (upstream_calls log
       ++ [Post extract_url (extract_params request) authorization])%list.
Proof.
  by_answer extract_url (extract_params request).
  - rewrite (tavily_extract_raised _ _ _ Hpost). apply upstream_calls_app.
  - rewrite (tavily_extract_200 _ _ _ Hpost Hs). apply upstream_calls_app.
  - rewrite (tavily_extract_non_200 _ _ _ Hpost Hs). apply upstream_calls_app.
Qed.

(** X7.  No caching and no retry inside a handler: each run makes one call
    of its own, whatever the provider answered to the one before.  Two
    runs of a handler on the same request, one after the other, add two
    equal calls to those already made. *)
Theorem each_run_makes_its_own_call
  (search : TavilySearchRequest.t) (extract : TavilyExtractRequest.t)
  (log : Log) :
  upstream_calls
    (snd (public_search search (snd (public_search search log))))
  = (upstream_calls log
       ++ [Post search_url (search_params search) authorization;
           Post search_url (search_params search) authorization])%list
  /\ upstream_calls
       (snd (tavily_search search (snd (tavily_search search log))))
     = (upstream_calls log
          ++ [Post search_url (search_params search) authorization;
              Post search_url (search_params search) authorization])%list
  /\ upstream_calls
       (snd (tavily_extract extract (snd (tavily_extract extract log))))
     = (upstream_calls log
          ++ [Post extract_url (extract_params extract) authorization;
              Post extract_url (extract_params extract) authorization])%list.
Proof.
  rewrite !public_search_calls_from, !tavily_search_calls_from,
    !tavily_extract_calls_from.
  rewrite <- !app_assoc. simpl. repeat split.
Qed.

Lemma search_route_calls (api_key_header : option string) (body : JSON) :
  upstream_calls (snd (handle search_route api_key_header body))
  = match validate_TavilySearchRequest body with
    | inl _ => []
    | inr request => [Post search_url (search_params request) authorization]
    end.
Proof.
  unfold handle. simpl.
  destruct (validate_TavilySearchRequest body) as [errors|request];
    [reflexivity|].
  now rewrite snd_render, public_search_calls.
Qed.

Lemma tavily_search_route_calls (api_key_header : option string)
  (body : JSON) :
  upstream_calls (snd (handle tavily_search_route api_key_header body))
  = (if py_eq api_key_header API_KEY
     then match validate_TavilySearchRequest body with
          | inl _ => []
          | inr request =>
              [Post search_url (search_params request) authorization]
          end
     else []).
Proof.
  destruct (py_eq api_key_header API_KEY) eqn:E.
  - apply py_eq_true in E. subst api_key_header.
    rewrite (handle_accepts tavily_search_route body eq_refl). simpl.
    destruct (validate_TavilySearchRequest body) as [errors|request];
      [reflexivity|].
    now rewrite snd_render, tavily_search_calls.
  - apply py_eq_false in E.
    now rewrite (handle_rejects tavily_search_route _ body eq_refl E).
Qed.

Lemma tavily_extract_route_calls (api_key_header : option string)
  (body : JSON) :
  upstream_calls (snd (handle tavily_extract_route api_key_header body))
  = (if py_eq api_key_header API_KEY
     then match validate_TavilyExtractRequest body with
          | inl _ => []
          | inr request =>
              [Post extract_url (extract_params request) authorization]
          end
     else []).
Proof.
  destruct (py_eq api_key_header API_KEY) eqn:E.
  - apply py_eq_true in E. subst api_key_header.
    rewrite (handle_accepts tavily_extract_route body eq_refl). simpl.
    destruct (validate_TavilyExtractRequest body) as [errors|request];
      [reflexivity|].
    now rewrite snd_render, tavily_extract_calls.
  - apply py_eq_false in E.
    now rewrite (handle_rejects tavily_extract_route _ body eq_refl E).
Qed.

(** X8.  The calls a request causes are decided by the credential gate
    and by validation alone, not by what the provider does: none when the
    gate or validation stops the request, else the single POST built from
    the validated request.  In particular no request causes more than one
    call. *)
Theorem calls_of_a_request (api_key_header : option string) (body : JSON) :
  upstream_calls (snd (handle search_route api_key_header body))
  = match validate_TavilySearchRequest body with
    | inl _ => []
    | inr request => [Post search_url (search_params request) authorization]
    end
  /\ upstream_calls (snd (handle tavily_search_route api_key_header body))
     = (if py_eq api_key_header API_KEY
        then match validate_TavilySearchRequest body with
             | inl _ => []
             | inr request =>
                 [Post search_url (search_params request) authorization]
             end
        else [])
  /\ upstream_calls (snd (handle tavily_extract_route api_key_header body))
     = (if py_eq api_key_header API_KEY
        then match validate_TavilyExtractRequest body with
             | inl _ => []
             | inr request =>
                 [Post extract_url (extract_params request) authorization]
             end
        else [])
  /\ (forall route : Route.t,
       In route app ->
       (length (upstream_calls (snd (handle route api_key_header body)))
        <= 1)%nat).
Proof.
  pose proof (search_route_calls api_key_header body) as Hpub.
  pose proof (tavily_search_route_calls api_key_header body) as Hprot.
  pose proof (tavily_extract_route_calls api_key_header body) as Hext.
  split; [exact Hpub|]. split; [exact Hprot|]. split; [exact Hext|].
  intros route [<-|[<-|[<-|[]]]].
  - rewrite Hpub. destruct (validate_TavilySearchRequest body); simpl; lia.
  - rewrite Hprot.
    destruct (py_eq api_key_header API_KEY),
      (validate_TavilySearchRequest body); simpl; lia.
  - rewrite Hext.
    destruct (py_eq api_key_header API_KEY),
      (validate_TavilyExtractRequest body); simpl; lia.
Qed.





(** X11.  The module loads only with a provider credential: the guard
    after [TAVILY_API_KEY] passes exactly when the environment holds a
    non-empty [TAVILY_API_KEY], and otherwise raises the exception that
    names the variable.  In a process that got past it, the bearer token
    of every call is that non-empty value.  [API_KEY] has no such guard:
    whether it is set does not matter to the start. *)
Theorem startup_requires_provider_credential :
  (startup = inr tt
   <-> exists key : string, dict_get "TAVILY_API_KEY" environ = Some key
                            /\ key <> "")
  /\ (startup <> inr tt ->
      startup
      = inl (Exception "TAVILY_API_KEY environment variable is required"))
  /\ (startup = inr tt ->
      exists key : string,
        key <> ""
        /\ dict_get "TAVILY_API_KEY" environ = Some key
        /\ authorization = [("Authorization", "Bearer " ++ key)]).
Proof.
  unfold startup, authorization, TAVILY_API_KEY, py_not.
  destruct (dict_get "TAVILY_API_KEY" environ) as [key|].
  - destruct (String.eqb key "") eqn:E.
    + apply String.eqb_eq in E. subst key. split; [|split].
      * split; [discriminate|]. intros (k & Hk & Hne).
        injection Hk as <-. now destruct Hne.
      * reflexivity.
      * discriminate.
    + apply String.eqb_neq in E. split; [|split].
      * split; [|reflexivity]. intros _. now exists key.
      * intros H. now destruct H.
      * intros _. now exists key.
  - split; [|split].
    + split; [discriminate|]. intros (k & Hk & _). discriminate Hk.
    + reflexivity.
    + discriminate.
Qed.

(** X12.  What the provider can receive.  Whatever the route, the
    credential and the body, a call that is made goes to one of the two
    fixed URLs with the [Authorization] header as its only header; its
    payload has exactly the declared fields of the model of that URL, and
    the enumerated fields in it are declared literals. *)
Theorem provider_receives_only_well_formed_calls
  (route : Route.t) (api_key_header : option string) (body : JSON)
  (url : string) (payload : JSON) (headers : Headers) :
  In route app ->
  In (Post url payload headers)
    (upstream_calls (snd (handle route api_key_header body))) ->
  headers = authorization
  /\ ((url = search_url
       /\ json_keys payload = TavilySearchRequest_fields
       /\ (forall (name : string) (literals : list string),
            In (name, literals) TavilySearchRequest_enums ->
            exists s : string,
              json_get name payload = Some (JString s) /\ In s literals))
      \/ (url = extract_url
          /\ json_keys payload = TavilyExtractRequest_fields
          /\ (forall (name : string) (literals : list string),
               In (name, literals) TavilyExtractRequest_enums ->
               exists s : string,
                 json_get name payload = Some (JString s) /\ In s literals))).
Proof.
  intros Hroute Hin.
  pose proof (search_route_calls api_key_header body) as Hpub.
  pose proof (tavily_search_route_calls api_key_header body) as Hprot.
  pose proof (tavily_extract_route_calls api_key_header body) as Hext.
  assert (Hsearch : forall request : TavilySearchRequest.t,
             validate_TavilySearchRequest body = inr request ->
             In (Post url payload headers)
               [Post search_url (search_params request) authorization] ->
             headers = authorization
             /\ ((url = search_url
                  /\ json_keys payload = TavilySearchRequest_fields
                  /\ (forall (name : string) (literals : list string),
                       In (name, literals) TavilySearchRequest_enums ->
                       exists s : string,
                         json_get name payload = Some (JString s)
                         /\ In s literals))
                 \/ (url = extract_url
                     /\ json_keys payload = TavilyExtractRequest_fields
                     /\ (forall (name : string) (literals : list string),
                          In (name, literals) TavilyExtractRequest_enums ->
                          exists s : string,
                            json_get name payload = Some (JString s)
                            /\ In s literals)))).
  { intros request Hv [E|[]]. injection E as <- <- <-.
    split; [reflexivity|]. left. split; [reflexivity|].
    split; [reflexivity|].
    destruct (search_literals_kept body request Hv) as (H1 & H2 & H3).
    intros name literals [E|[E|[E|[]]]]; injection E as <- <-;
      eexists; (split; [reflexivity|assumption]). }
  destruct Hroute as [<-|[<-|[<-|[]]]].
  - rewrite Hpub in Hin.
    destruct (validate_TavilySearchRequest body) as [errors|request] eqn:Hv;
      [destruct Hin|].
    now apply (Hsearch request).
  - rewrite Hprot in Hin.
    destruct (py_eq api_key_header API_KEY); [|destruct Hin].
    destruct (validate_TavilySearchRequest body) as [errors|request] eqn:Hv;
      [destruct Hin|].
    now apply (Hsearch request).
  - rewrite Hext in Hin.
    destruct (py_eq api_key_header API_KEY); [|destruct Hin].
    destruct (validate_TavilyExtractRequest body) as [errors|request] eqn:Hv;
      [destruct Hin|].
    destruct Hin as [E|[]]. injection E as <- <- <-.
    split; [reflexivity|]. right. split; [reflexivity|].
    split; [reflexivity|].
    pose proof (extract_literals_kept body request Hv) as H1.
    intros name literals [E|[]]; injection E as <- <-.
    eexists. split; [reflexivity|assumption].
Qed.

(** X14.  Nothing of a non-200 answer reaches the caller.  Whatever the
    status and the text of the answer, each of the three routes replies
    with status 500 and one and the same detail, [str] of the
    [HTTPException(500, "Tavily API error")] raised in the handler, which
    is "500: Tavily API error". *)
Theorem non_200_answer_is_hidden_from_the_caller :
  (forall (body : JSON) (request : TavilySearchRequest.t)
      (response : Response) (api_key_header : option string),
      validate_TavilySearchRequest body = inr request ->
      requests_post search_url (search_params request) authorization
      = inr response ->
      status_code response <> 200 ->
      fst (handle search_route api_key_header body)
      = Failed 500 "500: Tavily API error"
      /\ fst (handle tavily_search_route API_KEY body)
         = Failed 500 "500: Tavily API error")
  /\ (forall (body : JSON) (request : TavilyExtractRequest.t)
        (response : Response),
      validate_TavilyExtractRequest body = inr request ->
      requests_post extract_url (extract_params request) authorization
      = inr response ->
      status_code response <> 200 ->
      fst (handle tavily_extract_route API_KEY body)
      = Failed 500 "500: Tavily API error").
Proof.
  split.
  - intros body request response h Hv Hp Hs. split.
    + unfold handle. simpl. rewrite Hv.
      now rewrite (public_search_non_200 _ _ _ Hp Hs).
    + rewrite (handle_accepts tavily_search_route body eq_refl). simpl.
      rewrite Hv. now rewrite (tavily_search_non_200 _ _ _ Hp Hs).
  - intros body request response Hv Hp Hs.
    rewrite (handle_accepts tavily_extract_route body eq_refl). simpl.
    rewrite Hv. now rewrite (tavily_extract_non_200 _ _ _ Hp Hs).
Qed.

End Server.

(** ** The unset caller secret *)


(** C1, at the input where the code departs from it.  In an environment
    without [API_KEY], a request to [/tavily-search] or [/tavily-extract]
    that carries no [api_key] header passes [get_api_key] ([None == None])
    and is served: the provider is called and its answer returned, where
    the claim has a 403. *)
Theorem unset_API_KEY_admits_request_without_header :
  API_KEY environ_without_API_KEY = None
  /\ get_api_key environ_without_API_KEY None [] = (inr None, [])
  /\ handle environ_without_API_KEY exact_int exact_bool upstream_ok
       tavily_search_route None body_query_only
     = (Returned answer_body,
        [Post search_url (search_params request_query_only)
           [("Authorization", "Bearer tvly-provider")]])
  /\ handle environ_without_API_KEY exact_int exact_bool upstream_ok
       tavily_extract_route None body_urls
     = (Returned answer_body,
        [Post extract_url (extract_params request_urls)
           [("Authorization", "Bearer tvly-provider")]]).
Proof. repeat split. Qed.

(** ** The detail of an upstream failure *)

(** On an answer that is not 200 the [HTTPException] raised inside the
    [try] block is caught by the handler's own [except Exception] and
    raised again with [str] of it as detail. *)
Lemma non_200_reply (environ : dict string)
  (int_validator : JSON -> option Z) (bool_validator : JSON -> option bool)
  (requests_post : Upstream) (body : JSON) (request : TavilySearchRequest.t)
  (response : Response) :
  validate_TavilySearchRequest int_validator bool_validator body
  = inr request ->
  requests_post search_url (search_params request) (authorization environ)
  = inr response ->
  status_code response <> 200 ->
  fst (handle environ int_validator bool_validator requests_post
         tavily_search_route (API_KEY environ) body)
  = Failed 500 "500: Tavily API error".
Proof.
  intros Hv Hp Hs.
  rewrite (handle_accepts _ _ _ _ tavily_search_route body eq_refl).
  simpl. rewrite Hv, fst_render.
  now rewrite (tavily_search_non_200 _ _ _ _ _ Hp Hs).
Qed.

(** C4, at the input where the code departs from it.  The provider
    answers 503 to a request on [/tavily-search] with the right credential
    and a valid body.  The caller receives status 500, and neither the 503
    nor the provider's body; but the detail is "500: Tavily API error",
    the [str] of the inner exception, not the message "Tavily API error"
    that the handler raises. *)
Theorem upstream_503_detail_is_str_of_inner_exception :
  handle environ_configured exact_int exact_bool upstream_503
    tavily_search_route (Some "s3cret") body_query_only
  = (Failed 500 "500: Tavily API error",
     [Post search_url (search_params request_query_only)
        [("Authorization", "Bearer tvly-provider")];
      Print "Service Unavailable"])
  /\ fst (handle environ_configured exact_int exact_bool upstream_503
            tavily_search_route (Some "s3cret") body_query_only)
     <> Failed 500 "Tavily API error".
Proof. split; [reflexivity|discriminate]. Qed.

(** ** Tool discovery, as claimed *)

(** C8 as stated fails: the tool list is not confined to the two protected
    operations, since the public route [/search] is on it. *)
Lemma discovery_is_not_confined_to_protected_routes :
  ~ (forall route : Route.t,
        In route (tools mcp) ->
        Route.path route = "/tavily-search"
        \/ Route.path route = "/tavily-extract").
Proof.
  intros H. destruct (H search_route) as [E|E].
  - now left.
  - discriminate E.
  - discriminate E.
Qed.

(** ** The theorems at concrete requests *)

Lemma protected_route_rejects_other_credentials_witness :
  API_KEY environ_configured = Some "s3cret"
  /\ (None : option string) <> Some "s3cret"
  /\ fst (handle environ_configured exact_int exact_bool upstream_ok
            tavily_extract_route None body_urls)
     = Failed 403 "Invalid API key"
  /\ upstream_calls
       (snd (handle environ_configured exact_int exact_bool upstream_ok
               tavily_extract_route None body_urls))
     = [].
Proof.
  split; [reflexivity|]. split; [discriminate|].
  destruct (protected_route_rejects_other_credentials
              environ_configured exact_int exact_bool upstream_ok
              "s3cret" tavily_extract_route None body_urls)
    as (Hreply & Hcalls & _).
  - reflexivity.
  - right. reflexivity.
  - discriminate.
  - split; [exact Hreply|exact Hcalls].
Defined.

Lemma authorized_call_forwards_model_fields_witness :
  API_KEY environ_configured = Some "s3cret"
  /\ TAVILY_API_KEY environ_configured = Some "tvly-provider"
  /\ validate_TavilySearchRequest exact_int exact_bool body_query_only
     = inr request_query_only
  /\ upstream_calls
       (snd (handle environ_configured exact_int exact_bool upstream_ok
               tavily_search_route (Some "s3cret") body_query_only))
     = [Post search_url (search_params request_query_only)
          [("Authorization", "Bearer tvly-provider")]].
Proof.
  split; [reflexivity|]. split; [reflexivity|]. split; [reflexivity|].
  destruct (authorized_call_forwards_model_fields_with_provider_credential
              environ_configured exact_int exact_bool upstream_ok
              "s3cret" "tvly-provider" eq_refl eq_refl)
    as (Hsearch & _).
  destruct (Hsearch body_query_only request_query_only eq_refl)
    as (Hcalls & _).
  exact Hcalls.
Defined.

Lemma enum_value_outside_literals_witness :
  dict_get "search_depth"
    [("query", JString "rust ownership"); ("search_depth", JString "deep")]
  = Some (JString "deep")
  /\ outside search_depth_literals (JString "deep")
  /\ exists errors : list ValidationError,
      validate_TavilySearchRequest exact_int exact_bool body_deep = inl errors
      /\ In {| loc := "search_depth"; kind := literal_error |} errors
      /\ upstream_calls
           (snd (handle environ_configured exact_int exact_bool upstream_ok
                   tavily_search_route (Some "s3cret") body_deep))
         = [].
Proof.
  assert (Hout : outside search_depth_literals (JString "deep")).
  { intros s Hin E. injection E as <-.
    simpl in Hin. destruct Hin as [E|[E|[]]]; discriminate E. }
  split; [reflexivity|]. split; [exact Hout|].
  destruct (enum_value_outside_literals_rejected_before_upstream
              environ_configured exact_int exact_bool upstream_ok
              [("query", JString "rust ownership");
               ("search_depth", JString "deep")]
              "search_depth" search_depth_literals (JString "deep")
              eq_refl Hout)
    as (Hsearch & _).
  destruct Hsearch as (errors & Hv & Hin & _ & _ & Hcalls).
  - left. reflexivity.
  - exists errors. split; [exact Hv|]. split; [exact Hin|].
    exact (Hcalls (Some "s3cret")).
Defined.

Lemma exception_during_upstream_call_witness :
  upstream_unreachable search_url (search_params request_query_only)
    (authorization environ_configured)
  = inl (Exception "Connection reset by peer")
  /\ fst (public_search environ_configured upstream_unreachable
            request_query_only [])
     = inl (HTTPException 500 "Connection reset by peer")
  /\ fst (tavily_search environ_configured upstream_unreachable
            request_query_only [])
     = inl (HTTPException 500 "Connection reset by peer").
Proof.
  split; [reflexivity|].
  destruct (exception_during_upstream_call_becomes_500_with_its_message
              environ_configured upstream_unreachable
              (Exception "Connection reset by peer"))
    as (Hsearch & _).
  exact (Hsearch request_query_only [] eq_refl).
Defined.

Lemma only_protected_search_prints_witness :
  status_code
    {| status_code := 503;
       text := "Service Unavailable";
       json := inl (Exception "Expecting value: line 1 column 1 (char 0)") |}
  <> 200
  /\ printed (snd (tavily_search environ_configured upstream_503
                     request_query_only []))
     = [Print "Service Unavailable"]
  /\ printed (snd (public_search environ_configured upstream_503
                     request_query_only []))
     = []
  /\ printed (snd (tavily_extract environ_configured upstream_503
                     request_urls []))
     = [].
Proof.
  split; [discriminate|].
  destruct (only_protected_search_prints_provider_body
              environ_configured upstream_503
              request_query_only request_urls []
              {| status_code := 503;
                 text := "Service Unavailable";
                 json := inl (Exception
                                "Expecting value: line 1 column 1 (char 0)") |}
              {| status_code := 503;
                 text := "Service Unavailable";
                 json := inl (Exception
                                "Expecting value: line 1 column 1 (char 0)") |})
    as (_ & _ & _ & Hprot & Hpub & Hext & _).
  - reflexivity.
  - discriminate.
  - reflexivity.
  - discriminate.
  - split; [exact Hprot|]. split; [exact Hpub|exact Hext].
Defined.

Lemma discovery_lists_every_route_witness :
  (None : option string) <> API_KEY environ_configured
  /\ map Route.path (tools mcp)
     = ["/search"; "/tavily-search"; "/tavily-extract"]
  /\ list_tools environ_configured mcp None
     = (inl (HTTPException 403 "Invalid API key"), []).
Proof.
  split; [discriminate|].
  destruct (discovery_lists_every_route_behind_get_api_key environ_configured)
    as (Hlist & _ & _ & Hgate & _).
  split; [exact Hlist|].
  apply Hgate. discriminate.
Defined.

(** ** The further properties at concrete requests *)

Lemma validated_request_has_declared_literals_witness :
  validate_TavilySearchRequest exact_int exact_bool body_query_only
  = inr request_query_only
  /\ In (TavilySearchRequest.search_depth request_query_only)
       search_depth_literals
  /\ In (TavilySearchRequest.topic request_query_only) topic_literals
  /\ In (TavilySearchRequest.time_range request_query_only)
       time_range_literals.
Proof.
  split; [reflexivity|].
  destruct (validated_request_has_declared_literals exact_int exact_bool)
    as (Hsearch & _).
  exact (Hsearch body_query_only request_query_only eq_refl).
Defined.

Lemma params_validate_back_witness :
  (forall n : Z, exact_int (JInt n) = Some n)
  /\ (forall b : bool, exact_bool (JBool b) = Some b)
  /\ validate_TavilySearchRequest exact_int exact_bool
       (search_params request_query_only)
     = inr request_query_only
  /\ validate_TavilyExtractRequest exact_bool (extract_params request_urls)
     = inr request_urls.
Proof.
  split; [intros n; reflexivity|]. split; [intros b; reflexivity|].
  destruct (params_validate_back_to_the_request exact_int exact_bool
              (fun n => eq_refl) (fun b => eq_refl))
    as (Hsearch & Hextract & _).
  split.
  - exact (Hsearch body_query_only request_query_only eq_refl).
  - exact (Hextract body_urls request_urls eq_refl).
Defined.

Lemma search_fields_forwarded_or_defaulted_witness :
  validate_TavilySearchRequest exact_int exact_bool
    (JObject [("query", JString "rust ownership");
              ("search_depth", JString "advanced")])
  = inr (TavilySearchRequest.mk "rust ownership" "advanced" "general" 3
           "day" 10 false false false [] [])
  /\ json_get "search_depth"
       (search_params
          (TavilySearchRequest.mk "rust ownership" "advanced" "general" 3
             "day" 10 false false false [] []))
     = Some (JString "advanced")
  /\ json_get "days"
       (search_params
          (TavilySearchRequest.mk "rust ownership" "advanced" "general" 3
             "day" 10 false false false [] []))
     = Some (JInt 3).
Proof.
  split; [reflexivity|].
  destruct (search_fields_forwarded_or_defaulted exact_int exact_bool
              (JObject [("query", JString "rust ownership");
                        ("search_depth", JString "advanced")])
              (TavilySearchRequest.mk "rust ownership" "advanced" "general" 3
                 "day" 10 false false false [] [])
              eq_refl)
    as (Hgiven & Hdefault).
  split.
  - apply Hgiven; [right; left; reflexivity|reflexivity].
  - apply Hdefault; [right; right; left; reflexivity|reflexivity].
Defined.

Lemma extract_fields_forwarded_or_defaulted_witness :
  validate_TavilyExtractRequest exact_bool body_urls = inr request_urls
  /\ json_get "urls" (extract_params request_urls)
     = Some (JArray [JString "http://a"])
  /\ json_get "extract_depth" (extract_params request_urls)
     = Some (JString "basic")
  /\ validate_TavilyExtractRequest exact_bool
       (JObject [("urls", JArray (map JString []))])
     = inr (TavilyExtractRequest.mk [] "basic" false).
Proof.
  split; [reflexivity|].
  destruct (extract_fields_forwarded_or_defaulted exact_bool)
    as (Hfields & Hurls).
  destruct (Hfields body_urls request_urls eq_refl) as (Hgiven & Hdefault).
  split; [|split].
  - apply Hgiven; [left; reflexivity|reflexivity].
  - apply Hdefault; [left; reflexivity|reflexivity].
  - exact (Hurls []).
Defined.

Lemma undeclared_keys_are_ignored_witness :
  ~ In "api_key" TavilySearchRequest_fields
  /\ ~ In "api_key" TavilyExtractRequest_fields
  /\ handle environ_configured exact_int exact_bool upstream_ok
       search_route None
       (JObject [("api_key", JString "s3cret");
                 ("query", JString "rust ownership")])
     = handle environ_configured exact_int exact_bool upstream_ok
         search_route None body_query_only.
Proof.
  assert (Hs : ~ In "api_key" TavilySearchRequest_fields)
    by (unfold TavilySearchRequest_fields; simpl; intuition discriminate).
  assert (He : ~ In "api_key" TavilyExtractRequest_fields)
    by (unfold TavilyExtractRequest_fields; simpl; intuition discriminate).
  split; [exact Hs|]. split; [exact He|].
  destruct (undeclared_keys_are_ignored environ_configured exact_int
              exact_bool upstream_ok)
    as (_ & _ & Hroute).
  exact (Hroute "api_key" (JString "s3cret")
           [("query", JString "rust ownership")] search_route None Hs He).
Defined.

Lemma body_without_required_field_witness :
  json_get "query" body_urls = None
  /\ exists errors : list ValidationError,
      validate_TavilySearchRequest exact_int exact_bool body_urls
      = inl errors
      /\ (In {| loc := "query"; kind := missing |} errors
          \/ errors = [{| loc := "body"; kind := type_error |}])
      /\ upstream_calls
           (snd (handle environ_configured exact_int exact_bool upstream_ok
                   tavily_search_route (Some "s3cret") body_urls))
         = [].
Proof.
  split; [reflexivity|].
  destruct (body_without_required_field_is_rejected environ_configured
              exact_int exact_bool upstream_ok body_urls)
    as (Hmissing & _).
  destruct (Hmissing eq_refl) as (errors & Hv & Hkind & Hroutes).
  exists errors. split; [exact Hv|]. split; [exact Hkind|].
  exact (proj2 (Hroutes (Some "s3cret"))).
Defined.

Lemma calls_of_a_request_witness :
  In tavily_extract_route app
  /\ (length
        (upstream_calls
           (snd (handle environ_configured exact_int exact_bool
                   upstream_unreachable tavily_extract_route
                   (Some "s3cret") body_urls)))
      <= 1)%nat.
Proof.
  assert (Hin : In tavily_extract_route app)
    by (right; right; left; reflexivity).
  split; [exact Hin|].
  destruct (calls_of_a_request environ_configured exact_int exact_bool
              upstream_unreachable (Some "s3cret") body_urls)
    as (_ & _ & _ & Hmost).
  exact (Hmost tavily_extract_route Hin).
Defined.



Lemma startup_requires_provider_credential_witness :
  startup environ_configured = inr tt
  /\ startup []
     = inl (Exception "TAVILY_API_KEY environment variable is required")
  /\ exists key : string,
      key <> ""
      /\ dict_get "TAVILY_API_KEY" environ_configured = Some key
      /\ authorization environ_configured
         = [("Authorization", "Bearer " ++ key)].
Proof.
  split; [reflexivity|]. split.
  - destruct (startup_requires_provider_credential []) as (_ & Hfail & _).
    apply Hfail. discriminate.
  - destruct (startup_requires_provider_credential environ_configured)
      as (_ & _ & Hstarted).
    exact (Hstarted eq_refl).
Defined.

Lemma provider_receives_only_well_formed_calls_witness :
  In search_route app
  /\ In (Post search_url (search_params request_query_only)
           (authorization environ_configured))
       (upstream_calls
          (snd (handle environ_configured exact_int exact_bool upstream_ok
                  search_route None body_query_only)))
  /\ json_keys (search_params request_query_only)
     = TavilySearchRequest_fields
  /\ exists s : string,
      json_get "topic" (search_params request_query_only) = Some (JString s)
      /\ In s topic_literals.
Proof.
  assert (Hin : In search_route app) by (left; reflexivity).
  assert (Hcall : In (Post search_url (search_params request_query_only)
                        (authorization environ_configured))
                    (upstream_calls
                       (snd (handle environ_configured exact_int exact_bool
                               upstream_ok search_route None
                               body_query_only))))
    by (left; reflexivity).
  split; [exact Hin|]. split; [exact Hcall|].
  destruct (provider_receives_only_well_formed_calls environ_configured
              exact_int exact_bool upstream_ok search_route None
              body_query_only search_url (search_params request_query_only)
              (authorization environ_configured) Hin Hcall)
    as (_ & [(_ & Hkeys & Henums)|(Hurl & _)]).
  - split; [exact Hkeys|].
    apply Henums. right. left. reflexivity.
  - discriminate Hurl.
Defined.


Lemma non_200_answer_is_hidden_witness :
  validate_TavilyExtractRequest exact_bool body_urls = inr request_urls
  /\ fst (handle environ_configured exact_int exact_bool upstream_503
            tavily_extract_route (Some "s3cret") body_urls)
     = Failed 500 "500: Tavily API error".
Proof.
  split; [reflexivity|].
  destruct (non_200_answer_is_hidden_from_the_caller environ_configured
              exact_int exact_bool upstream_503)
    as (_ & Hextract).
  apply (Hextract body_urls request_urls
           {| status_code := 503;
              text := "Service Unavailable";
              json := inl (Exception
                             "Expecting value: line 1 column 1 (char 0)") |}
           eq_refl eq_refl).
  discriminate.
Defined.
